(** * EnerShift: the scoring engine of the dashboard

    A shallow embedding of the computations of
    [src/components/EnerShiftDashboard.tsx] (battery recompute effect,
    [generateRecommendations], [calculateFeasibility]) and of
    [src/components/EnhancedFeatures.tsx] ([calculateEnhancedMetrics]).

    A TypeScript [number] is an IEEE 754 binary64 value; it is modelled by
    Rocq's primitive [float], whose operations are the same binary64
    operations with round-to-nearest-even, so NaN, the two zeros, the
    infinities and rounding behave as they do when the program runs.
    React state is modelled by records and every function of a component by
    a function from the state of the render it closes over to the next
    state. *)

From Stdlib Require Import ZArith Bool List String Lia Floats.
Import ListNotations.

Set Warnings "-inexact-float".

(** ** JavaScript numbers *)

Module JS.

Definition number := float.

(** [a > b], [a < b] and [a >= b]: false as soon as an operand is NaN. *)
Definition gt (a b : number) : bool := PrimFloat.ltb b a.
Definition lt (a b : number) : bool := PrimFloat.ltb a b.
Definition ge (a b : number) : bool := PrimFloat.leb b a.
Definition le (a b : number) : bool := PrimFloat.leb a b.

Definition isNaN (a : number) : bool := negb (PrimFloat.eqb a a).

(** ToBoolean on a number: [+0], [-0] and NaN are falsy. *)
Definition truthy (a : number) : bool :=
  negb (isNaN a) && negb (PrimFloat.eqb a 0%float).

(** [a || b] on numbers. *)
Definition or (a b : number) : number := if truthy a then a else b.

(** [Math.max(a, b)]: NaN if an argument is NaN, and [+0] is larger than
    [-0]. *)
Definition max (a b : number) : number :=
  if isNaN a || isNaN b then PrimFloat.nan
  else if PrimFloat.ltb a b then b
  else if PrimFloat.ltb b a then a
  else match PrimFloat.classify a with
       | NZero => b
       | _ => a
       end.

(** A number that is neither NaN nor an infinity. *)
Definition isFinite (a : number) : bool :=
  match PrimFloat.classify a with
  | NaN | PInf | NInf => false
  | _ => true
  end.

(** [Math.min(a, b)]: NaN if an argument is NaN, and [-0] is smaller than
    [+0]. *)
Definition min (a b : number) : number :=
  if isNaN a || isNaN b then PrimFloat.nan
  else if PrimFloat.ltb a b then a
  else if PrimFloat.ltb b a then b
  else match PrimFloat.classify a with
       | NZero => a
       | _ => b
       end.

(** [Math.max(...l)]: [-Infinity] for no argument. *)
Definition maxOf (l : list number) : number :=
  fold_left max l PrimFloat.neg_infinity.

(** The number of a length or an index. *)
Definition ofNat (n : nat) : number :=
  PrimFloat.of_uint63 (Uint63Axioms.of_Z (Z.of_nat n)).

End JS.

(** ** JavaScript arrays, as lists *)

Module JSArray.

(** [l.map((x, i) => f x i)] and [l.filter((x, i) => p x i)], from the
    index [i] on. *)
Fixpoint mapFrom {A B : Type} (f : A -> nat -> B) (i : nat) (l : list A) : list B :=
  match l with
  | [] => []
  | x :: r => f x i :: mapFrom f (S i) r
  end.

Fixpoint filterFrom {A : Type} (p : A -> nat -> bool) (i : nat) (l : list A) : list A :=
  match l with
  | [] => []
  | x :: r => if p x i then x :: filterFrom p (S i) r else filterFrom p (S i) r
  end.

Definition map {A B : Type} (f : A -> nat -> B) (l : list A) : list B := mapFrom f 0 l.

Definition filter {A : Type} (p : A -> nat -> bool) (l : list A) : list A :=
  filterFrom p 0 l.

(** [l.slice(-k)]: the last [k] elements, all of them when there are fewer. *)
Definition sliceLast {A : Type} (k : nat) (l : list A) : list A :=
  skipn (List.length l - k) l.

(** [l[l.length - 1]]: [undefined] on the empty array. *)
Definition lastElement {A : Type} (l : list A) : option A :=
  nth_error l (List.length l - 1).

End JSArray.

Declare Scope js_scope.
Delimit Scope js_scope with js.
Notation "a >? b" := (JS.gt a b) (at level 70, no associativity) : js_scope.
Notation "a <? b" := (JS.lt a b) (at level 70, no associativity) : js_scope.
Notation "a >=? b" := (JS.ge a b) (at level 70, no associativity) : js_scope.
Notation "a <=? b" := (JS.le a b) (at level 70, no associativity) : js_scope.
Notation "a ||| b" := (JS.or a b) (at level 50, left associativity) : js_scope.

Local Open Scope string_scope.
Local Open Scope float_scope.
Local Open Scope js_scope.

(** ** Data model (the interfaces of the two components) *)

Record LocationData := {
  latitude : JS.number;
  longitude : JS.number;
  city : string;
  region : string;
  country : string
}.

Record Sample := { time : string; value : JS.number }.

(** The shape shared by [EnergyData.solar] and [EnergyData.wind]. *)
Record Source := {
  current : JS.number;
  average : JS.number;
  peak : JS.number;
  data : list Sample
}.

Record EnergyData := { solar : Source; wind : Source }.

Record BatteryState := {
  capacity : JS.number;
  currentCharge : JS.number;
  percentage : JS.number;
  runtime : JS.number
}.

Record Appliance := { name : string; power : JS.number; hours : JS.number }.

Record EnergyConsumption := {
  dailyDemand : JS.number;
  peakHours : string;
  appliances : list Appliance
}.

Module CostAnalysis.
Record t := {
  gridCost : JS.number;
  renewableSavings : JS.number;
  paybackPeriod : JS.number;
  annualSavings : JS.number
}.
End CostAnalysis.

Module CarbonFootprint.
Record t := {
  currentEmissions : JS.number;
  renewableReduction : JS.number;
  annualSavings : JS.number;
  treesEquivalent : JS.number
}.
End CarbonFootprint.

Inductive RecType := solar_t | wind_t | battery_t | grid_t | economic_t | environmental_t.
Inductive Priority := critical | high | medium | low.

Record EnhancedRecommendation := {
  type : RecType;
  priority : Priority;
  message : string;
  action : string;
  timeframe : string;
  impact : JS.number;
  confidence : JS.number
}.

Inductive Status := optimal | moderate | not_recommended.
Inductive Icon := CheckCircle | AlertTriangle | XCircle.

Record FeasibilityResult := {
  status : Status;
  score : JS.number;
  reason : string;
  icon : Icon
}.

(** The state of [EnerShiftDashboard] that the engine reads or writes. *)
Record Dashboard := {
  location : option LocationData;
  energyData : option EnergyData;
  battery : BatteryState;
  recommendations : list EnhancedRecommendation;
  feasibility : option FeasibilityResult;
  energyConsumption : EnergyConsumption;
  costAnalysis : CostAnalysis.t
}.

Definition setBattery (b : BatteryState) (st : Dashboard) : Dashboard :=
  {| location := location st; energyData := energyData st; battery := b;
     recommendations := recommendations st; feasibility := feasibility st;
     energyConsumption := energyConsumption st; costAnalysis := costAnalysis st |}.

Definition setRecommendations (recs : list EnhancedRecommendation) (st : Dashboard) : Dashboard :=
  {| location := location st; energyData := energyData st; battery := battery st;
     recommendations := recs; feasibility := feasibility st;
     energyConsumption := energyConsumption st; costAnalysis := costAnalysis st |}.

Definition setFeasibility (f : FeasibilityResult) (st : Dashboard) : Dashboard :=
  {| location := location st; energyData := energyData st; battery := battery st;
     recommendations := recommendations st; feasibility := Some f;
     energyConsumption := energyConsumption st; costAnalysis := costAnalysis st |}.

(** ** Battery recompute effect (EnerShiftDashboard.tsx, lines 147-157) *)

Definition averageDemand (e : option EnergyData) : JS.number :=
  match e with
  | Some d => (average (solar d) + average (wind d)) / 2
  | None => 5
  end.

(** The divisor of the runtime: [averageDemand || 5]. *)
Definition runtimeDivisor (e : option EnergyData) : JS.number :=
  averageDemand e ||| 5.

Definition recomputeBattery (e : option EnergyData) (b : BatteryState) : BatteryState :=
  let percentage' := (currentCharge b / capacity b) * 100 in
  let runtime' := currentCharge b / runtimeDivisor e in
  {| capacity := capacity b; currentCharge := currentCharge b;
     percentage := percentage'; runtime := runtime' |}.

Definition batteryEffect (st : Dashboard) : Dashboard :=
  setBattery (recomputeBattery (energyData st) (battery st)) st.

(** ** Feasibility scorer (EnerShiftDashboard.tsx, lines 428-498) *)

(** The two locals [score] and [reasons] that the branches update. *)
Record Tally := { points : JS.number; reasons : list string }.

(** [score += p; reasons.push(tag)]. *)
Definition award (p : JS.number) (tag : string) (t : Tally) : Tally :=
  {| points := points t + p; reasons := reasons t ++ [tag] |}.

(** [let score = 0; let reasons = []]. *)
Definition startTally : Tally := {| points := 0; reasons := [] |}.

Definition solarScoring (s : Source) (t : Tally) : Tally :=
  if average s >? 6 then award 40 "excellent solar availability" t
  else if average s >? 4 then award 25 "good solar potential" t
  else award 10 "limited solar resources" t.

Definition windScoring (w : Source) (t : Tally) : Tally :=
  if average w >? 5 then award 30 "strong wind resources" t
  else if average w >? 3 then award 20 "moderate wind potential" t
  else award 5 "low wind availability" t.

Definition batteryScoring (b : BatteryState) (t : Tally) : Tally :=
  if runtime b >? 12 then award 20 "sufficient battery capacity" t
  else if runtime b >? 6 then award 15 "adequate battery runtime" t
  else award 5 "limited battery capacity" t.

Definition reliabilityScoring (e : EnergyData) (t : Tally) : Tally :=
  if (peak (solar e) >? 7) || (peak (wind e) >? 6)
  then award 10 "reliable energy peaks" t
  else t.

Definition determineStatus (sc : JS.number) : Status * Icon :=
  if sc >=? 80 then (optimal, CheckCircle)
  else if sc >=? 60 then (moderate, AlertTriangle)
  else (not_recommended, XCircle).

Definition feasibilityTally (e : EnergyData) (b : BatteryState) : Tally :=
  reliabilityScoring e
    (batteryScoring b
       (windScoring (wind e)
          (solarScoring (solar e) startTally))).

Definition feasibilityResult (e : EnergyData) (b : BatteryState) : FeasibilityResult :=
  let t := feasibilityTally e b in
  let '(st, ic) := determineStatus (points t) in
  {| status := st; score := points t;
     reason := String.concat ", " (reasons t); icon := ic |}.

(** [calculateFeasibility]: returns at once, leaving the state as it is,
    when there is no energy data. *)
Definition calculateFeasibility (st : Dashboard) : Dashboard :=
  match energyData st with
  | None => st
  | Some e => setFeasibility (feasibilityResult e (battery st)) st
  end.

(** ** Recommendation generator (EnerShiftDashboard.tsx, lines 337-426) *)

Section Recommendations.

(** [Number.prototype.toFixed] is a built-in of the host: [toFixed x d]
    stands for [x.toFixed(d)].  The generator only pastes its result into
    two messages. *)
Variable toFixed : JS.number -> Z -> string.

(** [if (c) recs.push(r)]. *)
Definition pushIf (c : bool) (r : EnhancedRecommendation)
           (recs : list EnhancedRecommendation) : list EnhancedRecommendation :=
  if c then recs ++ [r] else recs.

Definition isDaytime (currentHour : Z) : bool :=
  (currentHour >=? 6)%Z && (currentHour <=? 18)%Z.

Definition solarRec (currentHour : Z) : EnhancedRecommendation :=
  {| type := solar_t; priority := critical;
     message := "Excellent solar conditions detected";
     action := "Maximize solar charging immediately";
     timeframe := if isDaytime currentHour then "Next 2-4 hours" else "Tomorrow 10AM-2PM";
     impact := 85; confidence := 92 |}.

Definition windRec : EnhancedRecommendation :=
  {| type := wind_t; priority := high;
     message := "Strong wind speeds available";
     action := "Activate wind turbine charging";
     timeframe := "Next 6 hours";
     impact := 70; confidence := 88 |}.

Definition economicRec (e : EnergyData) (cost : CostAnalysis.t) : EnhancedRecommendation :=
  let savings := (average (solar e) + average (wind e)) * CostAnalysis.gridCost cost * 0.8 in
  {| type := economic_t; priority := medium;
     message := "Potential daily savings: ₹" ++ toFixed savings 0;
     action := "Optimize renewable mix for maximum ROI";
     timeframe := "Daily optimization";
     impact := 60; confidence := 85 |}.

Definition carbonReduction (c : EnergyConsumption) : JS.number :=
  (dailyDemand c * 0.82) / 1000.

Definition environmentalRec (c : EnergyConsumption) : EnhancedRecommendation :=
  {| type := environmental_t; priority := medium;
     message := "Reduce " ++ toFixed (carbonReduction c) 1 ++ "kg CO2 daily";
     action := "Switch to 100% renewable energy";
     timeframe := "Continuous";
     impact := 90; confidence := 95 |}.

Definition batteryRec : EnhancedRecommendation :=
  {| type := battery_t; priority := critical;
     message := "Critical battery level detected";
     action := "Switch to grid backup immediately";
     timeframe := "Immediate";
     impact := 100; confidence := 100 |}.

Definition gridRec : EnhancedRecommendation :=
  {| type := grid_t; priority := high;
     message := "Low renewable availability";
     action := "Use grid power during off-peak hours";
     timeframe := "Next 12 hours";
     impact := 45; confidence := 80 |}.

(** The array [recs] after the six rules, for the energy data [e]. *)
Definition recommendationsFor (currentHour : Z) (e : EnergyData) (b : BatteryState)
           (c : EnergyConsumption) (cost : CostAnalysis.t) : list EnhancedRecommendation :=
  let recs := [] in
  let recs := pushIf ((current (solar e) >? 5) && (percentage b <? 50))
                     (solarRec currentHour) recs in
  let recs := pushIf ((current (wind e) >? 5) && (percentage b <? 70))
                     windRec recs in
  let recs := pushIf ((average (solar e) >? 4) && (average (wind e) >? 3))
                     (economicRec e cost) recs in
  let recs := pushIf (carbonReduction c >? 0.5)
                     (environmentalRec c) recs in
  let recs := pushIf (percentage b <? 20)
                     batteryRec recs in
  let recs := pushIf ((current (solar e) <? 3) && (current (wind e) <? 3))
                     gridRec recs in
  recs.

(** [generateRecommendations], called at the hour [currentHour] of the
    host clock ([new Date().getHours()]). *)
Definition generateRecommendations (currentHour : Z) (st : Dashboard) : Dashboard :=
  match energyData st with
  | None => st
  | Some e =>
      setRecommendations
        (recommendationsFor currentHour e (battery st) (energyConsumption st) (costAnalysis st))
        st
  end.

(** The effect of lines 160-165.  Both calls close over the state of the
    same render; they write different fields and neither reads the field
    the other writes. *)
Definition scoringEffect (currentHour : Z) (st : Dashboard) : Dashboard :=
  match energyData st, location st with
  | Some _, Some _ => calculateFeasibility (generateRecommendations currentHour st)
  | _, _ => st
  end.

End Recommendations.

(** ** Cost and carbon projection (EnhancedFeatures.tsx, lines 87-117) *)

Module EnhancedFeatures.

(** The state of the component [EnhancedFeatures]. *)
Record State := {
  energyConsumption : EnergyConsumption;
  costAnalysis : CostAnalysis.t;
  carbonFootprint : CarbonFootprint.t
}.

(** The state of the component at its first render. *)
Definition initialState : State :=
  {| energyConsumption :=
       {| dailyDemand := 25; peakHours := "18:00-22:00";
          appliances := [ {| name := "LED Lights"; power := 0.5; hours := 8 |};
                          {| name := "Refrigerator"; power := 1.2; hours := 24 |};
                          {| name := "Mobile Charging"; power := 0.1; hours := 4 |};
                          {| name := "Water Pump"; power := 2.0; hours := 2 |};
                          {| name := "TV"; power := 0.8; hours := 6 |} ] |};
     costAnalysis :=
       {| CostAnalysis.gridCost := 8.5; CostAnalysis.renewableSavings := 0;
          CostAnalysis.paybackPeriod := 0; CostAnalysis.annualSavings := 0 |};
     carbonFootprint :=
       {| CarbonFootprint.currentEmissions := 0; CarbonFootprint.renewableReduction := 0;
          CarbonFootprint.annualSavings := 0; CarbonFootprint.treesEquivalent := 0 |} |}.

Definition systemCost : JS.number := 80000.

Definition dailyRenewableGeneration (e : EnergyData) : JS.number :=
  (average (solar e) + average (wind e)) * 0.8.

Definition dailyGridUsage (e : EnergyData) (c : EnergyConsumption) : JS.number :=
  JS.max 0 (dailyDemand c - dailyRenewableGeneration e).

Definition dailySavings (e : EnergyData) (c : EnergyConsumption) (gridCost : JS.number) : JS.number :=
  (dailyDemand c - dailyGridUsage e c) * gridCost.

Definition annualSavings (e : EnergyData) (c : EnergyConsumption) (gridCost : JS.number) : JS.number :=
  dailySavings e c gridCost * 365.

Definition paybackPeriod (annual : JS.number) : JS.number :=
  if annual >? 0 then systemCost / annual else 0.

(** [setCostAnalysis(prev => ({...prev, renewableSavings, annualSavings,
    paybackPeriod}))]. *)
Definition costProjection (e : EnergyData) (c : EnergyConsumption)
           (prev : CostAnalysis.t) : CostAnalysis.t :=
  let annual := annualSavings e c (CostAnalysis.gridCost prev) in
  {| CostAnalysis.gridCost := CostAnalysis.gridCost prev;
     CostAnalysis.renewableSavings := dailySavings e c (CostAnalysis.gridCost prev);
     CostAnalysis.paybackPeriod := paybackPeriod annual;
     CostAnalysis.annualSavings := annual |}.

Definition carbonProjection (e : EnergyData) (c : EnergyConsumption) : CarbonFootprint.t :=
  let currentEmissions := dailyDemand c * 0.82 in
  let renewableReduction := dailyRenewableGeneration e * 0.82 in
  let annualCarbonSavings := renewableReduction * 365 in
  let treesEquivalent := annualCarbonSavings / 22 in
  {| CarbonFootprint.currentEmissions := currentEmissions;
     CarbonFootprint.renewableReduction := renewableReduction;
     CarbonFootprint.annualSavings := annualCarbonSavings;
     CarbonFootprint.treesEquivalent := treesEquivalent |}.

(** [calculateEnhancedMetrics] for the prop [energyData = e]. *)
Definition calculateEnhancedMetrics (e : EnergyData) (st : State) : State :=
  {| energyConsumption := energyConsumption st;
     costAnalysis := costProjection e (energyConsumption st) (costAnalysis st);
     carbonFootprint := carbonProjection e (energyConsumption st) |}.

(** The effect of lines 80-85: [if (energyData && battery)]. *)
Definition metricsEffect (e : option EnergyData) (b : option BatteryState)
           (st : State) : State :=
  match e, b with
  | Some d, Some _ => calculateEnhancedMetrics d st
  | _, _ => st
  end.

(** *** The appliance list (lines 148-169) and what is shown of it *)

Definition setAppliances (l : list Appliance) (c : EnergyConsumption) : EnergyConsumption :=
  {| dailyDemand := dailyDemand c; peakHours := peakHours c; appliances := l |}.

Definition setEnergyConsumption (f : EnergyConsumption -> EnergyConsumption) (st : State) : State :=
  {| energyConsumption := f (energyConsumption st);
     costAnalysis := costAnalysis st;
     carbonFootprint := carbonFootprint st |}.

Definition newAppliance : Appliance :=
  {| name := "New Appliance"; power := 1.0; hours := 4 |}.

Definition addAppliance (st : State) : State :=
  setEnergyConsumption (fun prev => setAppliances (appliances prev ++ [newAppliance]) prev) st.

(** The [field] and [value] of the three calls of [updateAppliance]:
    ['name'] with a string, ['power'] and ['hours'] with a number. *)
Inductive FieldValue :=
| NameIs (v : string)
| PowerIs (v : JS.number)
| HoursIs (v : JS.number).

(** [{ ...appliance, [field]: value }]. *)
Definition withField (fv : FieldValue) (a : Appliance) : Appliance :=
  match fv with
  | NameIs v => {| name := v; power := power a; hours := hours a |}
  | PowerIs v => {| name := name a; power := v; hours := hours a |}
  | HoursIs v => {| name := name a; power := power a; hours := v |}
  end.

Definition updateAppliance (index : nat) (fv : FieldValue) (st : State) : State :=
  setEnergyConsumption
    (fun prev =>
       setAppliances
         (JSArray.map (fun appliance i => if Nat.eqb i index then withField fv appliance
                                          else appliance)
                      (appliances prev))
         prev)
    st.

Definition removeAppliance (index : nat) (st : State) : State :=
  setEnergyConsumption
    (fun prev =>
       setAppliances (JSArray.filter (fun _ i => negb (Nat.eqb i index)) (appliances prev)) prev)
    st.

(** The total of line 327:
    [appliances.reduce((sum, app) => sum + (app.power * app.hours), 0)]. *)
Definition totalDailyConsumption (l : list Appliance) : JS.number :=
  fold_left (fun sum app => sum + power app * hours app) l 0.



End EnhancedFeatures.

(** ** The snapshot built by [fetchEnergyData] (EnerShiftDashboard.tsx, lines 237-335) *)

Section FetchEnergyData.

(** The label of a day: [new Date(...).toLocaleDateString()] of the host,
    applied to the date key of an entry. *)
Variable formatDay : string -> string.

(** [Object.values(...)] of the entries of a parameter of the response. *)
Definition valuesOf (entries : list (string * JS.number)) : list JS.number :=
  List.map snd entries.

(** [Object.entries(...).slice(-7).map(...)]. *)
Definition chartData (entries : list (string * JS.number)) : list Sample :=
  List.map (fun '(date, v) => {| time := formatDay date; value := v |})
           (JSArray.sliceLast 7 entries).

(** [values[values.length - 1] || 0]. *)
Definition currentOf (values : list JS.number) : JS.number :=
  match JSArray.lastElement values with
  | Some v => v ||| 0
  | None => 0
  end.

(** [values.reduce((a, b) => a + b, 0) / values.length || 0]. *)
Definition averageOf (values : list JS.number) : JS.number :=
  (fold_left (fun a b => a + b) values 0 / JS.ofNat (List.length values)) ||| 0.

(** [Math.max(...values) || 0]. *)
Definition peakOf (values : list JS.number) : JS.number :=
  JS.maxOf values ||| 0.

Definition sourceOf (entries : list (string * JS.number)) : Source :=
  {| current := currentOf (valuesOf entries);
     average := averageOf (valuesOf entries);
     peak := peakOf (valuesOf entries);
     data := chartData entries |}.

(** The data of the [catch] branch. *)
Definition fallbackEnergyData : EnergyData :=
  {| solar :=
       {| current := 4.2; average := 5.1; peak := 8.3;
          data := [ {| time := "Day 1"; value := 4.2 |}; {| time := "Day 2"; value := 5.8 |};
                    {| time := "Day 3"; value := 6.1 |}; {| time := "Day 4"; value := 3.9 |};
                    {| time := "Day 5"; value := 7.2 |}; {| time := "Day 6"; value := 8.1 |};
                    {| time := "Day 7"; value := 5.4 |} ] |};
     wind :=
       {| current := 3.8; average := 4.2; peak := 7.9;
          data := [ {| time := "Day 1"; value := 3.8 |}; {| time := "Day 2"; value := 4.5 |};
                    {| time := "Day 3"; value := 2.9 |}; {| time := "Day 4"; value := 5.2 |};
                    {| time := "Day 5"; value := 6.8 |}; {| time := "Day 6"; value := 4.1 |};
                    {| time := "Day 7"; value := 3.3 |} ] |} |}.

(** The snapshot [fetchEnergyData] stores: built from the two parameters of
    the responses, or the fallback when anything in the [try] block throws
    ([None]). *)
Definition fetchedEnergyData
           (response : option (list (string * JS.number) * list (string * JS.number)))
  : EnergyData :=
  match response with
  | Some (solarEntries, windEntries) =>
      {| solar := sourceOf solarEntries; wind := sourceOf windEntries |}
  | None => fallbackEnergyData
  end.

End FetchEnergyData.

Definition setEnergyData (e : EnergyData) (st : Dashboard) : Dashboard :=
  {| location := location st; energyData := Some e; battery := battery st;
     recommendations := recommendations st; feasibility := feasibility st;
     energyConsumption := energyConsumption st; costAnalysis := costAnalysis st |}.

(** ** The list of recommendations as it is rendered (EnerShiftDashboard.tsx, lines 765-790) *)

Inductive BadgeVariant := destructive | default | secondary.

(** [rec.priority === 'high' ? 'destructive' : rec.priority === 'medium' ?
    'default' : 'secondary']. *)
Definition badgeVariant (p : Priority) : BadgeVariant :=
  match p with
  | high => destructive
  | medium => default
  | _ => secondary
  end.

Inductive Glyph := Sun | Wind | Battery | Zap.

(** The icon of a recommendation: one [rec.type === ... &&] test per
    glyph. *)
Definition glyphOf (t : RecType) : option Glyph :=
  match t with
  | solar_t => Some Sun
  | wind_t => Some Wind
  | battery_t => Some Battery
  | grid_t => Some Zap
  | _ => None
  end.

(** ** The first version of the generator (EnhancedFeatures.tsx, second
    document, lines 851-898) *)

Module Legacy.

(** The first version has four of the six categories and no [critical]
    priority; its values are read in the types of the second version. *)
Record Recommendation := {
  type : RecType;
  priority : Priority;
  message : string;
  action : string
}.

Definition pushIf (c : bool) (r : Recommendation) (recs : list Recommendation)
  : list Recommendation :=
  if c then recs ++ [r] else recs.

Definition recommendationsFor (e : EnergyData) (b : BatteryState) : list Recommendation :=
  let recs := [] in
  let recs := pushIf ((current (solar e) >? 5) && (percentage b <? 50))
                     {| type := solar_t; priority := high;
                        message := "Excellent solar conditions detected";
                        action := "Charge battery during peak sunlight hours" |} recs in
  let recs := pushIf ((current (wind e) >? 5) && (percentage b <? 70))
                     {| type := wind_t; priority := high;
                        message := "Strong wind speeds available";
                        action := "Activate wind turbine charging" |} recs in
  let recs := pushIf (percentage b <? 20)
                     {| type := battery_t; priority := high;
                        message := "Critical battery level";
                        action := "Switch to grid backup immediately" |} recs in
  let recs := pushIf ((current (solar e) <? 3) && (current (wind e) <? 3))
                     {| type := grid_t; priority := medium;
                        message := "Low renewable energy availability";
                        action := "Reduce consumption or use grid backup" |} recs in
  recs.

End Legacy.

(** ** The state of the dashboard at its first render *)

Definition default_battery : BatteryState :=
  {| capacity := 100; currentCharge := 75; percentage := 75; runtime := 0 |}.

Definition initialDashboard : Dashboard :=
  {| location := None; energyData := None;
     battery := default_battery;
     recommendations := []; feasibility := None;
     energyConsumption :=
       {| dailyDemand := 25; peakHours := "18:00-22:00";
          appliances := [ {| name := "LED Lights"; power := 0.5; hours := 8 |};
                          {| name := "Refrigerator"; power := 1.2; hours := 24 |};
                          {| name := "Mobile Charging"; power := 0.1; hours := 4 |} ] |};
     costAnalysis :=
       {| CostAnalysis.gridCost := 8.5; CostAnalysis.renewableSavings := 0;
          CostAnalysis.paybackPeriod := 0; CostAnalysis.annualSavings := 0 |} |}.

(** The dashboard state with the four inputs of the generator, and nothing
    else. *)
Definition dashboardOf (e : EnergyData) (b : BatteryState) (c : EnergyConsumption)
           (cost : CostAnalysis.t) : Dashboard :=
  {| location := None; energyData := Some e; battery := b; recommendations := [];
     feasibility := None; energyConsumption := c; costAnalysis := cost |}.

(** ** The rule table of the specification (section 4.1) *)

(** What the table fixes of a recommendation: category, priority, impact and
    confidence. *)
Definition Outcome : Type := RecType * Priority * JS.number * JS.number.

Definition outcome (r : EnhancedRecommendation) : Outcome :=
  (type r, priority r, impact r, confidence r).

(** The table as the specification words it, in the order of its rows: a
    condition and the outcome of the rule. *)
Definition specRules (e : EnergyData) (b : BatteryState) (c : EnergyConsumption)
  : list (bool * Outcome) :=
  [ ((current (solar e) >? 5) && (percentage b <? 50), (solar_t, critical, 85, 92));
    ((current (wind e) >? 5) && (percentage b <? 70), (wind_t, high, 70, 88));
    ((average (solar e) >? 4) && (average (wind e) >? 3), (economic_t, medium, 60, 85));
    (dailyDemand c * 0.82 / 1000 >? 0.5, (environmental_t, medium, 90, 95));
    (percentage b <? 20, (battery_t, critical, 100, 100));
    ((current (solar e) <? 3) && (current (wind e) <? 3), (grid_t, high, 45, 80)) ].

(** One outcome per rule whose condition holds, in the order of the table. *)
Definition specGenerate (e : EnergyData) (b : BatteryState) (c : EnergyConsumption)
  : list Outcome :=
  map snd (filter fst (specRules e b c)).

(** What of a recommendation does not come from the clock: every field but
    the time frame. *)
Definition content (r : EnhancedRecommendation)
  : RecType * Priority * string * string * JS.number * JS.number :=
  (type r, priority r, message r, action r, impact r, confidence r).

(** ** Inputs of the worked examples *)

(** The snapshot and the battery of the specification's first example
    (score 100). *)
Definition example_snapshot : EnergyData :=
  {| solar := {| current := 6; average := 7; peak := 8; data := [] |};
     wind := {| current := 6; average := 6; peak := 7; data := [] |} |}.

Definition example_battery : BatteryState :=
  {| capacity := 100; currentCharge := 75; percentage := 75; runtime := 14 |}.

(** The snapshot and the profile of the specification's cost example:
    [dailyDemand = 25], [solar.average = 5], [wind.average = 4]. *)
Definition cost_example_snapshot : EnergyData :=
  {| solar := {| current := 5; average := 5; peak := 5; data := [] |};
     wind := {| current := 4; average := 4; peak := 4; data := [] |} |}.

Definition cost_example_profile : EnergyConsumption :=
  {| dailyDemand := 25; peakHours := "18:00-22:00"; appliances := [] |}.

(** A sunny and windy hour, a battery at 15% and a heavy demand: the first
    five rules of the generator fire. *)
Definition busy_snapshot : EnergyData :=
  {| solar := {| current := 6; average := 5; peak := 8; data := [] |};
     wind := {| current := 6; average := 4; peak := 7; data := [] |} |}.

Definition low_battery : BatteryState :=
  {| capacity := 100; currentCharge := 15; percentage := 15; runtime := 3 |}.

Definition heavy_profile : EnergyConsumption :=
  {| dailyDemand := 700; peakHours := "18:00-22:00"; appliances := [] |}.

(** A snapshot with no sun and no wind, and one whose averages are tiny. *)
Definition calm_snapshot : EnergyData :=
  {| solar := {| current := 0; average := 0; peak := 0; data := [] |};
     wind := {| current := 0; average := 0; peak := 0; data := [] |} |}.

Definition faint_snapshot : EnergyData :=
  {| solar := {| current := 0; average := 1e-310; peak := 0; data := [] |};
     wind := {| current := 0; average := 0; peak := 0; data := [] |} |}.

(** ** Classes of binary64 values, read on their specification *)

Module Binary64.

(** Neither NaN nor an infinity. *)
Definition SFfinite (x : spec_float) : bool :=
  match x with
  | S754_zero _ | S754_finite _ _ _ => true
  | _ => false
  end.

(** Neither NaN nor a zero. *)
Definition SFnonzero (y : spec_float) : bool :=
  match y with
  | S754_infinity _ | S754_finite _ _ _ => true
  | _ => false
  end.

(** Of magnitude at least 2: an infinity, or a mantissa and an exponent
    with at least two binary digits before the point. *)
Definition SFbig (y : spec_float) : bool :=
  match y with
  | S754_infinity _ => true
  | S754_finite _ m e => (2 <=? Zdigits2 (Z.pos m) + e)%Z
  | _ => false
  end.

End Binary64.

(** * Properties *)

(** ** Feasibility scorer *)

(** Each scoring step awards the points of one band, the same band whatever
    the tally it starts from. *)
Lemma solarScoring_cases (s : Source) :
  (forall t, solarScoring s t = award 40 "excellent solar availability" t) \/
  (forall t, solarScoring s t = award 25 "good solar potential" t) \/
  (forall t, solarScoring s t = award 10 "limited solar resources" t).
Proof.
  unfold solarScoring.
  destruct (average s >? 6); [now left|].
  destruct (average s >? 4); [now right; left | now right; right].
Qed.

Lemma windScoring_cases (w : Source) :
  (forall t, windScoring w t = award 30 "strong wind resources" t) \/
  (forall t, windScoring w t = award 20 "moderate wind potential" t) \/
  (forall t, windScoring w t = award 5 "low wind availability" t).
Proof.
  unfold windScoring.
  destruct (average w >? 5); [now left|].
  destruct (average w >? 3); [now right; left | now right; right].
Qed.

Lemma batteryScoring_cases (b : BatteryState) :
  (forall t, batteryScoring b t = award 20 "sufficient battery capacity" t) \/
  (forall t, batteryScoring b t = award 15 "adequate battery runtime" t) \/
  (forall t, batteryScoring b t = award 5 "limited battery capacity" t).
Proof.
  unfold batteryScoring.
  destruct (runtime b >? 12); [now left|].
  destruct (runtime b >? 6); [now right; left | now right; right].
Qed.

Lemma reliabilityScoring_cases (e : EnergyData) :
  (forall t, reliabilityScoring e t = award 10 "reliable energy peaks" t) \/
  (forall t, reliabilityScoring e t = t).
Proof.
  unfold reliabilityScoring.
  destruct ((peak (solar e) >? 7) || (peak (wind e) >? 6)); [now left | now right].
Qed.

(** The tallies a scoring pass can end with: one band per step. *)
Ltac tally_cases :=
  unfold feasibilityTally;
  repeat match goal with
         | |- context [solarScoring ?s _] =>
             let H := fresh in
             destruct (solarScoring_cases s) as [H | [H | H]]; rewrite !H; clear H
         | |- context [windScoring ?w _] =>
             let H := fresh in
             destruct (windScoring_cases w) as [H | [H | H]]; rewrite !H; clear H
         | |- context [batteryScoring ?b _] =>
             let H := fresh in
             destruct (batteryScoring_cases b) as [H | [H | H]]; rewrite !H; clear H
         | |- context [reliabilityScoring ?e _] =>
             let H := fresh in
             destruct (reliabilityScoring_cases e) as [H | H]; rewrite !H; clear H
         end.

Lemma award_points (p : JS.number) (tag : string) (t : Tally) :
  points (award p tag t) = points t + p.
Proof. reflexivity. Qed.

Lemma award_reasons (p : JS.number) (tag : string) (t : Tally) :
  reasons (award p tag t) = (reasons t ++ [tag])%list.
Proof. reflexivity. Qed.

(** The score and the status are those of the tally. *)
Lemma feasibilityResult_score (e : EnergyData) (b : BatteryState) :
  score (feasibilityResult e b) = points (feasibilityTally e b).
Proof.
  unfold feasibilityResult.
  destruct (determineStatus (points (feasibilityTally e b))); reflexivity.
Qed.

Lemma feasibilityResult_status (e : EnergyData) (b : BatteryState) :
  status (feasibilityResult e b) = fst (determineStatus (points (feasibilityTally e b))).
Proof.
  unfold feasibilityResult.
  destruct (determineStatus (points (feasibilityTally e b))); reflexivity.
Qed.

(** C1: for every snapshot and battery state the feasibility score lies in
    [20, 100]; the status is [optimal] exactly when the score is at least 80,
    [moderate] exactly when it is at least 60 and below 80, and
    [not-recommended] exactly when it is below 60. *)
Theorem feasibility_score_range_and_status (e : EnergyData) (b : BatteryState) :
  let r := feasibilityResult e b in
  (score r >=? 20) = true /\ (score r <=? 100) = true /\
  (status r = optimal <-> (score r >=? 80) = true) /\
  (status r = moderate <-> (score r >=? 60) = true /\ (score r <? 80) = true) /\
  (status r = not_recommended <-> (score r <? 60) = true).
Proof.
  intro r; subst r.
  rewrite feasibilityResult_status, feasibilityResult_score.
  tally_cases; vm_compute; intuition congruence.
Qed.

(** C3: for every snapshot with [solar.average > 6] the solar step awards
    exactly 40 points, whatever the wind values and the battery state: the
    tally after the solar step is 40 with the tag of the first band, the other
    steps start from it, and the final score is 40 plus what the other steps
    award on their own. *)
Theorem solar_subscore_above_6 (e : EnergyData) (b : BatteryState) :
  (average (solar e) >? 6) = true ->
  solarScoring (solar e) startTally
    = {| points := 40; reasons := ["excellent solar availability"] |} /\
  feasibilityTally e b
    = reliabilityScoring e (batteryScoring b (windScoring (wind e)
        {| points := 40; reasons := ["excellent solar availability"] |})) /\
  score (feasibilityResult e b)
    = 40 + points (reliabilityScoring e (batteryScoring b (windScoring (wind e) startTally))).
Proof.
  intros Hs.
  assert (E : solarScoring (solar e) startTally
              = {| points := 40; reasons := ["excellent solar availability"] |}).
  { unfold solarScoring. rewrite Hs. reflexivity. }
  split; [exact E|].
  split.
  - unfold feasibilityTally. rewrite E. reflexivity.
  - rewrite feasibilityResult_score. unfold feasibilityTally. rewrite E.
    tally_cases; reflexivity.
Qed.

Lemma solar_subscore_above_6_witness :
  solarScoring (solar example_snapshot) startTally
    = {| points := 40; reasons := ["excellent solar availability"] |} /\
  feasibilityTally example_snapshot example_battery
    = reliabilityScoring example_snapshot (batteryScoring example_battery
        (windScoring (wind example_snapshot)
           {| points := 40; reasons := ["excellent solar availability"] |})) /\
  score (feasibilityResult example_snapshot example_battery)
    = 40 + points (reliabilityScoring example_snapshot
                     (batteryScoring example_battery
                        (windScoring (wind example_snapshot) startTally))).
Proof.
  apply (solar_subscore_above_6 example_snapshot example_battery).
  reflexivity.
Defined.

(** The two worked examples of the specification: 40+30+20+10 = 100 is
    [optimal], 10+5+5+0 = 20 is [not-recommended]. *)
Example feasibility_example_100 :
  let r := feasibilityResult example_snapshot example_battery in
  score r = 100 /\ status r = optimal /\
  reason r = "excellent solar availability, strong wind resources, sufficient battery capacity, reliable energy peaks".
Proof. vm_compute. repeat split. Qed.

Example feasibility_example_20 :
  let e := {| solar := {| current := 0; average := 3; peak := 0; data := [] |};
              wind := {| current := 0; average := 2; peak := 0; data := [] |} |} in
  let b := {| capacity := 100; currentCharge := 20; percentage := 20; runtime := 4 |} in
  score (feasibilityResult e b) = 20 /\ status (feasibilityResult e b) = not_recommended.
Proof. vm_compute. repeat split. Qed.

(** C9: when the energy snapshot is absent the scorer leaves the state as it
    is: [calculateFeasibility] returns before scoring and the effect that
    calls it does not run, so the feasibility of the state is the prior one
    and no result is invented for the absent data. *)
Theorem no_feasibility_without_snapshot
        (toFixed : JS.number -> Z -> string) (currentHour : Z) (st : Dashboard) :
  energyData st = None ->
  calculateFeasibility st = st /\
  scoringEffect toFixed currentHour st = st /\
  feasibility (calculateFeasibility st) = feasibility st /\
  feasibility (scoringEffect toFixed currentHour st) = feasibility st.
Proof.
  intros H.
  assert (F : calculateFeasibility st = st) by (unfold calculateFeasibility; now rewrite H).
  assert (G : scoringEffect toFixed currentHour st = st) by (unfold scoringEffect; now rewrite H).
  now rewrite F, G.
Qed.

Lemma no_feasibility_without_snapshot_witness :
  calculateFeasibility initialDashboard = initialDashboard /\
  scoringEffect (fun _ _ => "") 12 initialDashboard = initialDashboard /\
  feasibility (calculateFeasibility initialDashboard) = feasibility initialDashboard /\
  feasibility (scoringEffect (fun _ _ => "") 12 initialDashboard) = feasibility initialDashboard.
Proof.
  apply (no_feasibility_without_snapshot (fun _ _ => "") 12%Z initialDashboard).
  reflexivity.
Defined.

(** With a snapshot and a location the effect does store a result. *)
Lemma scoringEffect_scores
      (toFixed : JS.number -> Z -> string) (currentHour : Z) (st : Dashboard)
      (e : EnergyData) (l : LocationData) :
  energyData st = Some e -> location st = Some l ->
  feasibility (scoringEffect toFixed currentHour st) = Some (feasibilityResult e (battery st)).
Proof.
  intros He Hl. unfold scoringEffect, generateRecommendations, calculateFeasibility.
  rewrite He, Hl. cbn. rewrite He. reflexivity.
Qed.

(** ** Battery recompute effect *)

(** C8: the effect recomputes [percentage = currentCharge / capacity * 100]
    and [runtime = currentCharge / (averageDemand || 5)], where
    [averageDemand] is the constant 5 when there is no snapshot; capacity and
    charge are kept.  With capacity 100, charge 0 and no snapshot, whatever
    percentage and runtime were stored before, the result is percentage 0 and
    runtime 0/5 = 0. *)
Theorem battery_recompute (e : option EnergyData) (b : BatteryState) (p r : JS.number) :
  percentage (recomputeBattery e b) = currentCharge b / capacity b * 100 /\
  runtime (recomputeBattery e b) = currentCharge b / (averageDemand e ||| 5) /\
  averageDemand None = 5 /\
  capacity (recomputeBattery e b) = capacity b /\
  currentCharge (recomputeBattery e b) = currentCharge b /\
  recomputeBattery None {| capacity := 100; currentCharge := 0; percentage := p; runtime := r |}
    = {| capacity := 100; currentCharge := 0; percentage := 0; runtime := 0 / 5 |} /\
  0 / 5 = 0.
Proof. repeat split. Qed.

(** The effect stores the recomputed battery and nothing else. *)
Lemma batteryEffect_battery (st : Dashboard) :
  battery (batteryEffect st) = recomputeBattery (energyData st) (battery st) /\
  energyData (batteryEffect st) = energyData st /\
  feasibility (batteryEffect st) = feasibility st /\
  recommendations (batteryEffect st) = recommendations st.
Proof. repeat split. Qed.

(** ** Facts on binary64 comparisons *)

Lemma Prim2SF_zero : Prim2SF 0 = S754_zero false.
Proof. reflexivity. Qed.

(** A number that is at most 0 is not above 0. *)
Lemma le_zero_not_gt (a : JS.number) : (a <=? 0) = true -> (a >? 0) = false.
Proof.
  unfold JS.le, JS.gt.
  rewrite FloatAxioms.leb_spec, FloatAxioms.ltb_spec, Prim2SF_zero.
  unfold SFleb, SFltb.
  destruct (Prim2SF a) as [s | s | | s m x]; try destruct s; cbn; congruence.
Qed.

(** NaN is not above 0 either. *)
Lemma nan_not_gt (a : JS.number) : JS.isNaN a = true -> (a >? 0) = false.
Proof.
  unfold JS.isNaN, JS.gt.
  rewrite FloatAxioms.eqb_spec, FloatAxioms.ltb_spec, Prim2SF_zero.
  unfold SFeqb, SFltb.
  destruct (Prim2SF a) as [s | s | | s m x]; try destruct s; cbn; try congruence.
  rewrite Z.compare_refl, Pos.compare_cont_refl. cbn. congruence.
Qed.

(** A number above 0 is neither 0 nor NaN. *)
Lemma gt_zero_truthy (a : JS.number) : (a >? 0) = true -> JS.truthy a = true.
Proof.
  unfold JS.gt, JS.truthy, JS.isNaN.
  rewrite !FloatAxioms.eqb_spec, FloatAxioms.ltb_spec, Prim2SF_zero.
  unfold SFeqb, SFltb.
  destruct (Prim2SF a) as [s | s | | s m x]; try destruct s; cbn; try congruence.
  rewrite Z.compare_refl, Pos.compare_cont_refl. reflexivity.
Qed.

(** ** Cost and carbon projection *)

Module EnhancedFeaturesFacts.
Import EnhancedFeatures.

(** C4: whatever the consumption profile, the snapshot and the grid cost,
    the stored payback period is [systemCost / annualSavings] when the
    stored annual savings are above 0 and the sentinel 0 when they are at
    most 0; it is 0 as well when they are NaN.  The computation is a total
    function, and the division it performs is by a number that is neither
    zero nor NaN: nothing is raised. *)
Theorem payback_period_guard (e : EnergyData) (st : State) :
  let cost := costAnalysis (calculateEnhancedMetrics e st) in
  let annual := CostAnalysis.annualSavings cost in
  ((annual >? 0) = true ->
   CostAnalysis.paybackPeriod cost = systemCost / annual /\ JS.truthy annual = true) /\
  ((annual <=? 0) = true -> CostAnalysis.paybackPeriod cost = 0) /\
  (JS.isNaN annual = true -> CostAnalysis.paybackPeriod cost = 0).
Proof.
  intros cost annual.
  assert (E : CostAnalysis.paybackPeriod cost = paybackPeriod annual) by reflexivity.
  rewrite E. unfold paybackPeriod. clearbody annual.
  split; [|split]; intros H.
  - split; [now rewrite H | now apply gt_zero_truthy].
  - now rewrite (le_zero_not_gt _ H).
  - now rewrite (nan_not_gt _ H).
Qed.

Lemma payback_period_guard_witness :
  CostAnalysis.paybackPeriod (costAnalysis (calculateEnhancedMetrics example_snapshot initialState))
    = systemCost
      / CostAnalysis.annualSavings
          (costAnalysis (calculateEnhancedMetrics example_snapshot initialState)) /\
  JS.truthy (CostAnalysis.annualSavings
               (costAnalysis (calculateEnhancedMetrics example_snapshot initialState))) = true /\
  CostAnalysis.paybackPeriod (costAnalysis (calculateEnhancedMetrics calm_snapshot initialState))
    = 0.
Proof.
  destruct (payback_period_guard example_snapshot initialState) as (Hpos & _ & _).
  destruct (payback_period_guard calm_snapshot initialState) as (_ & Hzero & _).
  destruct (Hpos eq_refl) as [Hdiv Hnz].
  split; [exact Hdiv|]. split; [exact Hnz|]. exact (Hzero eq_refl).
Defined.

(** C5, as the code computes it: the four formulas hold, each operation
    being the binary64 one, and the grid cost is kept.  On the example
    ([dailyDemand = 25], [solar.average = 5], [wind.average = 4],
    [gridCost = 8.5]) the generation is 7.2 and the grid usage 17.8 (the
    binary64 numbers nearest to them), but [25 - 17.8] is
    7.199999999999999 in binary64, so the daily savings are
    61.199999999999996, the binary64 number just below 61.2. *)
Theorem cost_projection_formulas (e : EnergyData) (st : State) :
  let c := energyConsumption st in
  let g := CostAnalysis.gridCost (costAnalysis st) in
  let cost := costAnalysis (calculateEnhancedMetrics e st) in
  dailyRenewableGeneration e = (average (solar e) + average (wind e)) * 0.8 /\
  dailyGridUsage e c = JS.max 0 (dailyDemand c - dailyRenewableGeneration e) /\
  CostAnalysis.renewableSavings cost = (dailyDemand c - dailyGridUsage e c) * g /\
  CostAnalysis.annualSavings cost = CostAnalysis.renewableSavings cost * 365 /\
  CostAnalysis.gridCost cost = g /\
  dailyRenewableGeneration cost_example_snapshot = 7.2 /\
  dailyGridUsage cost_example_snapshot cost_example_profile = 17.8 /\
  dailySavings cost_example_snapshot cost_example_profile 8.5 = 0x1.e999999999999p+5 /\
  next_up (dailySavings cost_example_snapshot cost_example_profile 8.5) = 61.2.
Proof. repeat split. Qed.

(** C5, the example as the claim states it: the daily savings the code
    computes are not the number 61.2. *)
Lemma cost_example_is_not_61_2 :
  dailySavings cost_example_snapshot cost_example_profile 8.5 <> 61.2 /\
  PrimFloat.eqb (dailySavings cost_example_snapshot cost_example_profile 8.5) 61.2 = false.
Proof.
  split; [|reflexivity].
  intros H.
  assert (E : PrimFloat.eqb (dailySavings cost_example_snapshot cost_example_profile 8.5) 61.2
              = true) by (rewrite H; reflexivity).
  vm_compute in E. discriminate E.
Qed.

(** C6: the carbon projection stores [currentEmissions = dailyDemand * 0.82],
    [renewableReduction = dailyRenewableGeneration * 0.82],
    [annualSavings = renewableReduction * 365] and
    [treesEquivalent = annualSavings / 22], whatever footprint was stored
    before. *)
Theorem carbon_projection_formulas (e : EnergyData) (st : State) :
  let c := energyConsumption st in
  let carbon := carbonFootprint (calculateEnhancedMetrics e st) in
  CarbonFootprint.currentEmissions carbon = dailyDemand c * 0.82 /\
  CarbonFootprint.renewableReduction carbon = dailyRenewableGeneration e * 0.82 /\
  dailyRenewableGeneration e = (average (solar e) + average (wind e)) * 0.8 /\
  CarbonFootprint.annualSavings carbon = CarbonFootprint.renewableReduction carbon * 365 /\
  CarbonFootprint.treesEquivalent carbon = CarbonFootprint.annualSavings carbon / 22.
Proof. repeat split. Qed.

(** The effect runs the projection exactly when both props are present. *)
Lemma metricsEffect_runs (e : EnergyData) (b : BatteryState) (st : State) :
  metricsEffect (Some e) (Some b) st = calculateEnhancedMetrics e st /\
  metricsEffect None (Some b) st = st /\
  metricsEffect (Some e) None st = st.
Proof. repeat split. Qed.

End EnhancedFeaturesFacts.

(** ** Recommendation generator *)

Lemma pushIf_app (c : bool) (r : EnhancedRecommendation) (recs : list EnhancedRecommendation) :
  pushIf c r recs = (recs ++ (if c then [r] else []))%list.
Proof. destruct c; cbn; [reflexivity | now rewrite app_nil_r]. Qed.

(** The generator is the concatenation of what each rule contributes. *)
Lemma recommendationsFor_app (toFixed : JS.number -> Z -> string) (h : Z)
      (e : EnergyData) (b : BatteryState) (c : EnergyConsumption) (cost : CostAnalysis.t) :
  recommendationsFor toFixed h e b c cost
  = ((if (current (solar e) >? 5) && (percentage b <? 50) then [solarRec h] else [])
     ++ (if (current (wind e) >? 5) && (percentage b <? 70) then [windRec] else [])
     ++ (if (average (solar e) >? 4) && (average (wind e) >? 3)
         then [economicRec toFixed e cost] else [])
     ++ (if carbonReduction c >? 0.5 then [environmentalRec toFixed c] else [])
     ++ (if percentage b <? 20 then [batteryRec] else [])
     ++ (if (current (solar e) <? 3) && (current (wind e) <? 3) then [gridRec] else []))%list.
Proof.
  unfold recommendationsFor. rewrite !pushIf_app. cbn [app].
  rewrite <- !app_assoc. reflexivity.
Qed.

(** C2: for every snapshot, battery state, consumption profile and grid cost
    (and at every hour of the clock, whatever [toFixed] prints) the generator
    yields exactly one recommendation per rule of the table whose condition
    holds, with the category, priority, impact and confidence of that rule,
    and none for a rule whose condition fails; they come in the order of the
    table, without sorting; when no rule fires the result is the empty
    sequence; and [generateRecommendations] stores that sequence as it is. *)
Theorem recommendations_follow_rule_table
        (toFixed : JS.number -> Z -> string) (h : Z)
        (e : EnergyData) (b : BatteryState) (c : EnergyConsumption) (cost : CostAnalysis.t) :
  let recs := recommendationsFor toFixed h e b c cost in
  map outcome recs = specGenerate e b c /\
  List.length recs = List.length (filter fst (specRules e b c)) /\
  (forallb (fun rule => negb (fst rule)) (specRules e b c) = true <-> recs = []) /\
  (forall (l : option LocationData) (old : list EnhancedRecommendation)
          (f : option FeasibilityResult),
      recommendations
        (generateRecommendations toFixed h
           {| location := l; energyData := Some e; battery := b; recommendations := old;
              feasibility := f; energyConsumption := c; costAnalysis := cost |})
      = recs).
Proof.
  intros recs; subst recs.
  assert (Hstore : forall (l : option LocationData) (old : list EnhancedRecommendation)
                          (f : option FeasibilityResult),
             recommendations
               (generateRecommendations toFixed h
                  {| location := l; energyData := Some e; battery := b; recommendations := old;
                     feasibility := f; energyConsumption := c; costAnalysis := cost |})
             = recommendationsFor toFixed h e b c cost) by reflexivity.
  revert Hstore. rewrite recommendationsFor_app.
  unfold specGenerate, specRules, carbonReduction.
  generalize ((current (solar e) >? 5) && (percentage b <? 50)); intros c1.
  generalize ((current (wind e) >? 5) && (percentage b <? 70)); intros c2.
  generalize ((average (solar e) >? 4) && (average (wind e) >? 3)); intros c3.
  generalize (dailyDemand c * 0.82 / 1000 >? 0.5); intros c4.
  generalize (percentage b <? 20); intros c5.
  generalize ((current (solar e) <? 3) && (current (wind e) <? 3)); intros c6.
  intros Hstore.
  repeat split; try exact Hstore;
    destruct c1, c2, c3, c4, c5, c6; cbn; try reflexivity;
    intros H; try discriminate H; reflexivity.
Qed.

Example recommendations_in_rule_order (toFixed : JS.number -> Z -> string) (h : Z) :
  map outcome
      (recommendationsFor toFixed h busy_snapshot low_battery heavy_profile
                          (costAnalysis initialDashboard))
  = [ (solar_t, critical, 85, 92); (wind_t, high, 70, 88); (economic_t, medium, 60, 85);
      (environmental_t, medium, 90, 95); (battery_t, critical, 100, 100) ].
Proof. reflexivity. Qed.

(** With the default profile and a mild snapshot no rule fires. *)
Example recommendations_empty (toFixed : JS.number -> Z -> string) (h : Z) :
  recommendationsFor toFixed h
    {| solar := {| current := 4; average := 4; peak := 5; data := [] |};
       wind := {| current := 4; average := 3; peak := 5; data := [] |} |}
    example_battery (energyConsumption initialDashboard) (costAnalysis initialDashboard)
  = [].
Proof. reflexivity. Qed.

Lemma solarRec_same_daytime (h1 h2 : Z) :
  isDaytime h1 = isDaytime h2 -> solarRec h1 = solarRec h2.
Proof. unfold solarRec. now intros ->. Qed.

Lemma recommendationsFor_gridCost (toFixed : JS.number -> Z -> string) (h : Z)
      (e : EnergyData) (b : BatteryState) (c : EnergyConsumption) (cost1 cost2 : CostAnalysis.t) :
  CostAnalysis.gridCost cost1 = CostAnalysis.gridCost cost2 ->
  recommendationsFor toFixed h e b c cost1 = recommendationsFor toFixed h e b c cost2.
Proof.
  intros H. unfold recommendationsFor, economicRec. now rewrite H.
Qed.

Lemma recommendationsFor_same_daytime (toFixed : JS.number -> Z -> string) (h1 h2 : Z)
      (e : EnergyData) (b : BatteryState) (c : EnergyConsumption) (cost : CostAnalysis.t) :
  isDaytime h1 = isDaytime h2 ->
  recommendationsFor toFixed h1 e b c cost = recommendationsFor toFixed h2 e b c cost.
Proof.
  intros H. unfold recommendationsFor. now rewrite (solarRec_same_daytime h1 h2 H).
Qed.

Lemma recommendationsFor_content (toFixed : JS.number -> Z -> string) (h1 h2 : Z)
      (e : EnergyData) (b : BatteryState) (c : EnergyConsumption) (cost : CostAnalysis.t) :
  map content (recommendationsFor toFixed h1 e b c cost)
  = map content (recommendationsFor toFixed h2 e b c cost).
Proof.
  rewrite !recommendationsFor_app, !map_app.
  destruct ((current (solar e) >? 5) && (percentage b <? 50)); reflexivity.
Qed.

(** C7, as the code has it: the sequence [generateRecommendations] stores is
    a function of the snapshot, the battery state, the consumption profile,
    the grid cost and the hour of the host clock, which it reads to word the
    time frame of the solar recommendation.  Two calls with identical inputs
    at hours that are both within 6..18 or both outside store identical
    sequences, field by field, whatever else the two states hold. *)
Theorem recommendations_deterministic_given_daytime
        (toFixed : JS.number -> Z -> string) (h1 h2 : Z) (st1 st2 : Dashboard) (e : EnergyData) :
  energyData st1 = Some e -> energyData st2 = Some e ->
  battery st1 = battery st2 ->
  energyConsumption st1 = energyConsumption st2 ->
  CostAnalysis.gridCost (costAnalysis st1) = CostAnalysis.gridCost (costAnalysis st2) ->
  isDaytime h1 = isDaytime h2 ->
  recommendations (generateRecommendations toFixed h1 st1)
  = recommendations (generateRecommendations toFixed h2 st2).
Proof.
  intros E1 E2 Hb Hc Hg Hh. unfold generateRecommendations.
  rewrite E1, E2. cbn. rewrite Hb, Hc.
  rewrite (recommendationsFor_gridCost toFixed h1 e _ _ _ _ Hg).
  now apply recommendationsFor_same_daytime.
Qed.

Lemma recommendations_deterministic_given_daytime_witness :
  recommendations
    (generateRecommendations (fun _ _ => "") 9
       (dashboardOf busy_snapshot low_battery heavy_profile (costAnalysis initialDashboard)))
  = recommendations
      (generateRecommendations (fun _ _ => "") 15
         (setFeasibility (feasibilityResult busy_snapshot low_battery)
            (dashboardOf busy_snapshot low_battery heavy_profile (costAnalysis initialDashboard)))).
Proof.
  apply (recommendations_deterministic_given_daytime (fun _ _ => "") 9%Z 15%Z
           (dashboardOf busy_snapshot low_battery heavy_profile (costAnalysis initialDashboard))
           (setFeasibility (feasibilityResult busy_snapshot low_battery)
              (dashboardOf busy_snapshot low_battery heavy_profile
                           (costAnalysis initialDashboard)))
           busy_snapshot); reflexivity.
Defined.

(** C7, the claim as stated: the same state at noon and at ten in the evening
    gives two different sequences, whatever [toFixed] prints. *)
Lemma recommendations_depend_on_clock :
  ~ exists toFixed : JS.number -> Z -> string,
      recommendations
        (generateRecommendations toFixed 12
           (dashboardOf busy_snapshot low_battery heavy_profile (costAnalysis initialDashboard)))
      = recommendations
          (generateRecommendations toFixed 22
             (dashboardOf busy_snapshot low_battery heavy_profile (costAnalysis initialDashboard))).
Proof.
  intros [toFixed H]. cbn in H.
  apply (f_equal (fun l => option_map timeframe (hd_error l))) in H.
  cbn in H. discriminate H.
Qed.

(** Everything but the time frame is the same at every hour, and a call
    changes nothing but the stored sequence. *)
Lemma generateRecommendations_clock_free_content
      (toFixed : JS.number -> Z -> string) (h1 h2 : Z) (st : Dashboard) (e : EnergyData) :
  energyData st = Some e ->
  map content (recommendations (generateRecommendations toFixed h1 st))
  = map content (recommendations (generateRecommendations toFixed h2 st)).
Proof.
  intros E. unfold generateRecommendations. rewrite E. cbn.
  apply recommendationsFor_content.
Qed.

Lemma generateRecommendations_idempotent
      (toFixed : JS.number -> Z -> string) (h : Z) (st : Dashboard) :
  generateRecommendations toFixed h (generateRecommendations toFixed h st)
  = generateRecommendations toFixed h st.
Proof.
  unfold generateRecommendations.
  destruct (energyData st) as [e|] eqn:E; cbn; rewrite E; reflexivity.
Qed.

(** ** Binary64 division: when the quotient is a number, and when it is finite

    The lemmas of this module are about the specification of the binary64
    operations ([SpecFloat]), to which the axioms of [FloatAxioms] relate the
    primitive operations. *)

Module Binary64Facts.
Import Binary64.

Local Open Scope Z_scope.

Lemma shr_1_nonneg (mrs : shr_record) : 0 <= shr_m mrs -> 0 <= shr_m (shr_1 mrs).
Proof.
  destruct mrs as [m r s]; cbn.
  destruct m as [|p|p]; [ | destruct p | ]; cbn; lia.
Qed.

Lemma shr_1_digits (mrs : shr_record) :
  0 <= shr_m mrs ->
  Zdigits2 (shr_m (shr_1 mrs)) = Z.max 0 (Zdigits2 (shr_m mrs) - 1).
Proof.
  destruct mrs as [m r s]; cbn.
  destruct m as [|p|p]; [ | destruct p | ];
    cbn [shr_1 shr_m Zdigits2 digits2_pos]; rewrite ?Pos2Z.inj_succ; lia.
Qed.

Lemma iter_shr_1_nonneg (p : positive) (mrs : shr_record) :
  0 <= shr_m mrs -> 0 <= shr_m (iter_pos shr_1 p mrs).
Proof.
  revert mrs; induction p as [p IH | p IH | ]; intros mrs H; cbn.
  - apply IH, IH, shr_1_nonneg, H.
  - apply IH, IH, H.
  - apply shr_1_nonneg, H.
Qed.

Lemma iter_shr_1_digits (p : positive) (mrs : shr_record) :
  0 <= shr_m mrs ->
  Zdigits2 (shr_m (iter_pos shr_1 p mrs)) = Z.max 0 (Zdigits2 (shr_m mrs) - Z.pos p).
Proof.
  revert mrs; induction p as [p IH | p IH | ]; intros mrs H; cbn [iter_pos].
  - rewrite IH, IH, shr_1_digits by
      (try apply iter_shr_1_nonneg; try apply shr_1_nonneg; exact H).
    lia.
  - rewrite IH, IH by (try apply iter_shr_1_nonneg; exact H). lia.
  - rewrite shr_1_digits by exact H. lia.
Qed.

Lemma digits2_pos_size (p : positive) : digits2_pos p = Pos.size p.
Proof. induction p as [p IH | p IH | ]; cbn; now rewrite ?IH. Qed.

Lemma Zdigits2_nonneg (m : Z) : 0 <= Zdigits2 m.
Proof. destruct m; cbn; lia. Qed.

Lemma Zdigits2_bounds (m : Z) :
  0 < m -> 2 ^ (Zdigits2 m - 1) <= m < 2 ^ Zdigits2 m.
Proof.
  destruct m as [|p|p]; try lia. intros _. cbn [Zdigits2].
  rewrite digits2_pos_size.
  pose proof (Pos.size_gt p) as Hgt. pose proof (Pos.size_le p) as Hle.
  apply Pos2Z.pos_lt_pos in Hgt. apply Pos2Z.pos_le_pos in Hle.
  rewrite Pos2Z.inj_pow in Hgt, Hle.
  replace (Z.pos (Pos.size p)) with (Z.succ (Z.pos (Pos.size p) - 1)) in Hle at 1 by lia.
  rewrite Z.pow_succ_r in Hle by lia.
  lia.
Qed.

Lemma Zdigits2_le (m k : Z) : 0 <= m -> 0 <= k -> m < 2 ^ k -> Zdigits2 m <= k.
Proof.
  intros Hm Hk H.
  destruct (Z.eq_dec m 0) as [-> | Hne]; [cbn; lia|].
  destruct (Zdigits2_bounds m ltac:(lia)) as [Hlo _].
  destruct (Z_le_gt_dec (Zdigits2 m) k) as [|Hgt]; [assumption|].
  assert (2 ^ k <= 2 ^ (Zdigits2 m - 1)) by (apply Z.pow_le_mono_r; lia).
  lia.
Qed.

Lemma Zdigits2_succ (m : Z) : 0 <= m -> Zdigits2 (m + 1) <= Zdigits2 m + 1.
Proof.
  intros Hm. pose proof (Zdigits2_nonneg m) as Hd.
  apply Zdigits2_le; try lia.
  destruct (Z.eq_dec m 0) as [-> | Hne]; [cbn; lia|].
  destruct (Zdigits2_bounds m ltac:(lia)) as [_ Hhi].
  rewrite Z.pow_add_r by lia. change (2 ^ 1) with 2. lia.
Qed.

Section Shr.
Variables prec emax : Z.

Lemma shr_record_of_loc_m (m : Z) (l : SpecFloat.location) : shr_m (shr_record_of_loc m l) = m.
Proof. destruct l as [|[]]; reflexivity. Qed.

(** What [shr_fexp] does to a non-negative mantissa: the exponent becomes
    the larger of the old one and the canonical one, and the number of
    digits shrinks by what the exponent grew. *)
Lemma shr_fexp_spec (m e : Z) (l : SpecFloat.location) :
  0 <= m ->
  let D := Zdigits2 m + e in
  let r := shr_fexp prec emax m e l in
  0 <= shr_m (fst r) /\
  snd r = Z.max e (fexp prec emax D) /\
  Zdigits2 (shr_m (fst r)) + snd r <= Z.max D (fexp prec emax D).
Proof.
  intros Hm D r. subst r. unfold shr_fexp, shr. fold D.
  destruct (fexp prec emax D - e) as [|p|p] eqn:En; cbn [fst snd].
  - rewrite shr_record_of_loc_m. lia.
  - rewrite iter_shr_1_digits by (rewrite shr_record_of_loc_m; exact Hm).
    split; [apply iter_shr_1_nonneg; rewrite shr_record_of_loc_m; exact Hm|].
    rewrite shr_record_of_loc_m. lia.
  - rewrite shr_record_of_loc_m. lia.
Qed.

Lemma round_nearest_even_bounds (m : Z) (l : SpecFloat.location) :
  0 <= m -> m <= round_nearest_even m l <= m + 1.
Proof.
  intros Hm. destruct l as [|[]]; cbn [round_nearest_even]; try lia.
  destruct (Z.even m); lia.
Qed.
End Shr.

Lemma binary_round_aux_not_nan (prec emax : Z) (s : bool) (m e : Z) (l : SpecFloat.location) :
  0 <= m -> binary_round_aux prec emax s m e l <> S754_nan.
Proof.
  intros Hm. unfold binary_round_aux.
  destruct (shr_fexp_spec prec emax m e l Hm) as (H1 & _ & _).
  destruct (shr_fexp prec emax m e l) as [mrs1 e1]. cbn [fst snd] in H1.
  set (m1 := round_nearest_even (shr_m mrs1) (loc_of_shr_record mrs1)).
  assert (Hm1 : 0 <= m1)
    by (pose proof (round_nearest_even_bounds (shr_m mrs1) (loc_of_shr_record mrs1) H1);
        subst m1; lia).
  destruct (shr_fexp_spec prec emax m1 e1 loc_Exact Hm1) as (H2 & _ & _).
  destruct (shr_fexp prec emax m1 e1 loc_Exact) as [mrs2 e2]. cbn [fst snd] in H2.
  destruct (shr_m mrs2) as [|p|p]; try lia; try discriminate.
  destruct (e2 <=? emax - prec); discriminate.
Qed.

(** No overflow in binary64 when the input is below [2^1023] with an
    exponent of at most 970. *)
Lemma binary_round_aux_finite (s : bool) (m e : Z) (l : SpecFloat.location) :
  0 <= m -> e <= 970 -> Zdigits2 m + e <= 1023 ->
  SFfinite (binary_round_aux prec emax s m e l) = true.
Proof.
  intros Hm He HD. unfold binary_round_aux.
  destruct (shr_fexp_spec prec emax m e l Hm) as (H1 & E1 & D1).
  destruct (shr_fexp prec emax m e l) as [mrs1 e1]. cbn [fst snd] in H1, E1, D1.
  set (m1 := round_nearest_even (shr_m mrs1) (loc_of_shr_record mrs1)).
  pose proof (round_nearest_even_bounds (shr_m mrs1) (loc_of_shr_record mrs1) H1) as Hr.
  fold m1 in Hr.
  assert (Hm1 : 0 <= m1) by lia.
  assert (Dm1 : Zdigits2 m1 <= Zdigits2 (shr_m mrs1) + 1).
  { assert (C : m1 = shr_m mrs1 \/ m1 = shr_m mrs1 + 1) by lia.
    destruct C as [-> | ->]; [lia | now apply Zdigits2_succ]. }
  destruct (shr_fexp_spec prec emax m1 e1 loc_Exact Hm1) as (H2 & E2 & _).
  destruct (shr_fexp prec emax m1 e1 loc_Exact) as [mrs2 e2]. cbn [fst snd] in H2, E2.
  unfold fexp, emin, prec, emax in *.
  destruct (shr_m mrs2) as [|p|p]; try lia; try reflexivity.
  replace (e2 <=? 1024 - 53) with true by (symmetry; apply Z.leb_le; lia).
  reflexivity.
Qed.

(** The quotient computed by [SFdiv_core_binary] for two positive mantissas. *)
Lemma SFdiv_core_binary_spec (p e : Z) (mx my : positive) (ex ey : Z) :
  let d1 := Zdigits2 (Z.pos mx) in
  let d2 := Zdigits2 (Z.pos my) in
  let r := SFdiv_core_binary p e (Z.pos mx) ex (Z.pos my) ey in
  let q := fst (fst r) in
  let e' := snd (fst r) in
  0 <= q /\
  e' <= fexp p e (d1 + ex - (d2 + ey)) /\
  Zdigits2 q + e' <= Z.max e' (d1 + ex - (d2 + ey) + 1).
Proof.
  intros d1 d2 r q e'. subst q e' r. unfold SFdiv_core_binary. fold d1 d2.
  set (e' := Z.min (fexp p e (d1 + ex - (d2 + ey))) (ex - ey)).
  set (s := ex - ey - e').
  assert (Hs : 0 <= s) by (subst s e'; lia).
  set (m' := match s with Z.pos _ => Z.shiftl (Z.pos mx) s | 0 => Z.pos mx | Z.neg _ => 0 end).
  assert (Hm' : m' = Z.pos mx * 2 ^ s).
  { subst m'. clearbody s. destruct s as [|k|k]; try lia.
    apply Z.shiftl_mul_pow2; lia. }
  pose proof (Z_div_mod m' (Z.pos my) ltac:(lia)) as Hdm.
  destruct (Z.div_eucl m' (Z.pos my)) as [q r]. cbn [fst snd].
  destruct Hdm as [Hq Hr].
  destruct (Zdigits2_bounds (Z.pos mx) ltac:(lia)) as [_ Hx]. fold d1 in Hx.
  destruct (Zdigits2_bounds (Z.pos my) ltac:(lia)) as [Hy _]. fold d2 in Hy.
  assert (Hd1 : 0 < d1) by (subst d1; cbn; lia).
  assert (Hd2 : 0 < d2) by (subst d2; cbn; lia).
  assert (P2 : 0 < 2 ^ s) by (apply Z.pow_pos_nonneg; lia).
  assert (Hlt : m' < 2 ^ (d1 + s)) by (rewrite Z.pow_add_r by lia; nia).
  assert (Hq0 : 0 <= q) by nia.
  split; [exact Hq0|]. split; [subst e'; lia|].
  assert (PA : 0 < 2 ^ (d2 - 1)) by (apply Z.pow_pos_nonneg; lia).
  assert (Hdq : Zdigits2 q <= Z.max 0 (d1 + s - d2 + 1)).
  { destruct (Z_le_gt_dec 0 (d1 + s - d2 + 1)) as [Ht | Ht].
    - rewrite Z.max_r by lia. apply Zdigits2_le; try lia.
      assert (E : 2 ^ (d1 + s) = 2 ^ (d1 + s - d2 + 1) * 2 ^ (d2 - 1)).
      { rewrite <- Z.pow_add_r by lia. f_equal; lia. }
      nia.
    - assert (2 ^ (d1 + s) <= 2 ^ (d2 - 1)) by (apply Z.pow_le_mono_r; lia).
      assert (q = 0) by nia. subst q. cbn. lia. }
  subst s. lia.
Qed.

Lemma valid_binary_digits (s : bool) (m : positive) (e : Z) :
  valid_binary (S754_finite s m e) = true ->
  Zdigits2 (Z.pos m) + e <= 1024 /\
  (Zdigits2 (Z.pos m) = 53 \/ e = -1074).
Proof.
  cbn [SpecFloat.valid_binary]. unfold bounded, canonical_mantissa, fexp, emin, prec, emax.
  intros H. apply andb_prop in H. destruct H as [Hc He].
  apply Z.eqb_eq in Hc. apply Z.leb_le in He. cbn [Zdigits2]. lia.
Qed.

Lemma SFdiv_not_nan (x y : spec_float) :
  SFfinite x = true -> SFnonzero y = true -> SF64div x y <> S754_nan.
Proof.
  unfold SF64div, SFdiv.
  destruct x as [sx | sx | | sx mx ex]; try discriminate;
    destruct y as [sy | sy | | sy my ey]; try discriminate; intros _ _; try discriminate.
  pose proof (SFdiv_core_binary_spec prec emax mx my ex ey) as H. cbv zeta in H.
  destruct (SFdiv_core_binary prec emax (Z.pos mx) ex (Z.pos my) ey) as [[q e'] l].
  cbn [fst snd] in H. apply binary_round_aux_not_nan. lia.
Qed.

Lemma SFdiv_finite (x y : spec_float) :
  valid_binary x = true ->
  SFfinite x = true -> SFbig y = true -> SFfinite (SF64div x y) = true.
Proof.
  unfold SF64div, SFdiv.
  destruct x as [sx | sx | | sx mx ex]; try discriminate;
    destruct y as [sy | sy | | sy my ey]; try discriminate; intros Hv _ Hy; try reflexivity.
  apply valid_binary_digits in Hv. destruct Hv as [Hv _].
  cbn [SFbig] in Hy. apply Z.leb_le in Hy.
  pose proof (SFdiv_core_binary_spec prec emax mx my ex ey) as H. cbv zeta in H.
  destruct (SFdiv_core_binary prec emax (Z.pos mx) ex (Z.pos my) ey) as [[q e'] l].
  cbn [fst snd] in H. destruct H as (Hq & He & HD).
  unfold fexp, emin, prec, emax in He.
  apply binary_round_aux_finite; lia.
Qed.

Lemma SFeqb_refl (x : spec_float) :
  SFeqb x x = match x with S754_nan => false | _ => true end.
Proof.
  unfold SFeqb.
  destruct x as [s | s | | s m e]; try destruct s; cbn; try reflexivity;
    now rewrite Z.compare_refl, Pos.compare_cont_refl.
Qed.

End Binary64Facts.

Lemma isFinite_spec (a : JS.number) : JS.isFinite a = Binary64.SFfinite (Prim2SF a).
Proof.
  unfold JS.isFinite. rewrite classify_spec. unfold SF64classify, SFclassify.
  destruct (Prim2SF a) as [s | s | | s m x]; try destruct s; try reflexivity;
    destruct (Z.pos (digits2_pos m) =? prec)%Z; reflexivity.
Qed.

Lemma isNaN_spec (a : JS.number) :
  JS.isNaN a = match Prim2SF a with S754_nan => true | _ => false end.
Proof.
  unfold JS.isNaN. rewrite FloatAxioms.eqb_spec, Binary64Facts.SFeqb_refl.
  now destruct (Prim2SF a).
Qed.

Lemma truthy_spec (a : JS.number) : JS.truthy a = Binary64.SFnonzero (Prim2SF a).
Proof.
  unfold JS.truthy. rewrite isNaN_spec, FloatAxioms.eqb_spec, Prim2SF_zero.
  unfold SFeqb.
  destruct (Prim2SF a) as [s | s | | s m x]; try destruct s; reflexivity.
Qed.

Lemma Prim2SF_two : Prim2SF 2 = S754_finite false 4503599627370496 (-51).
Proof. reflexivity. Qed.

(** A number that is at least 2 has at least two binary digits before the
    point. *)
Lemma ge_two_big (a : JS.number) : (a >=? 2) = true -> Binary64.SFbig (Prim2SF a) = true.
Proof.
  unfold JS.ge. rewrite FloatAxioms.leb_spec, Prim2SF_two.
  pose proof (Prim2SF_valid a) as Hv.
  unfold SFleb.
  destruct (Prim2SF a) as [s | s | | s m x]; try destruct s;
    cbn [SFcompare Binary64.SFbig]; try congruence.
  destruct (Binary64Facts.valid_binary_digits _ _ _ Hv) as [_ Hd].
  destruct (Z.compare_spec (-51) x) as [E | E | E]; try discriminate; intros _;
    apply Z.leb_le; lia.
Qed.

(** The quotient of a finite number by a number that is neither zero nor
    NaN is not NaN; by a number that is at least 2 it is finite. *)
Lemma div_not_nan (a d : JS.number) :
  JS.isFinite a = true -> JS.truthy d = true -> JS.isNaN (a / d) = false.
Proof.
  rewrite isFinite_spec, truthy_spec, isNaN_spec, div_spec. intros Ha Hd.
  pose proof (Binary64Facts.SFdiv_not_nan _ _ Ha Hd) as H.
  now destruct (SF64div (Prim2SF a) (Prim2SF d)).
Qed.

Lemma div_finite (a d : JS.number) :
  JS.isFinite a = true -> (d >=? 2) = true -> JS.isFinite (a / d) = true.
Proof.
  rewrite !isFinite_spec, div_spec. intros Ha Hd.
  apply Binary64Facts.SFdiv_finite; [apply Prim2SF_valid | exact Ha | now apply ge_two_big].
Qed.

(** ** The divisor of the battery runtime *)

Lemma runtimeDivisor_truthy (e : option EnergyData) : JS.truthy (runtimeDivisor e) = true.
Proof.
  unfold runtimeDivisor, JS.or.
  destruct (JS.truthy (averageDemand e)) eqn:E; [exact E | reflexivity].
Qed.

Lemma runtimeDivisor_fallback (e : option EnergyData) :
  JS.truthy (averageDemand e) = false -> runtimeDivisor e = 5.
Proof. unfold runtimeDivisor, JS.or. now intros ->. Qed.

Lemma zero_not_truthy (a : JS.number) : PrimFloat.eqb a 0 = true -> JS.truthy a = false.
Proof. unfold JS.truthy. intros ->. now rewrite andb_false_r. Qed.

(** C10, as the code computes it: the runtime is never a division by zero.
    The divisor [averageDemand || 5] is never [+0], [-0] or NaN; it is 5
    when [averageDemand] is 0 (of either sign) and when it is NaN.  For a
    finite charge the runtime is therefore never NaN, and it is finite when
    the divisor is the fallback 5 or at least 2. *)
Theorem runtime_never_divides_by_zero (e : option EnergyData) (b : BatteryState) :
  PrimFloat.eqb (runtimeDivisor e) 0 = false /\
  JS.isNaN (runtimeDivisor e) = false /\
  (PrimFloat.eqb (averageDemand e) 0 = true ->
   runtimeDivisor e = 5 /\ runtime (recomputeBattery e b) = currentCharge b / 5) /\
  (JS.isNaN (averageDemand e) = true -> runtimeDivisor e = 5) /\
  (JS.isFinite (currentCharge b) = true ->
   JS.isNaN (runtime (recomputeBattery e b)) = false) /\
  (JS.isFinite (currentCharge b) = true -> JS.truthy (averageDemand e) = false ->
   JS.isFinite (runtime (recomputeBattery e b)) = true) /\
  (JS.isFinite (currentCharge b) = true -> (averageDemand e >=? 2) = true ->
   JS.isFinite (runtime (recomputeBattery e b)) = true).
Proof.
  pose proof (runtimeDivisor_truthy e) as T.
  assert (T' := T). unfold JS.truthy in T'. apply andb_prop in T'.
  destruct T' as [N Z0]. apply negb_true_iff in N, Z0.
  split; [exact Z0|]. split; [exact N|].
  cbn [recomputeBattery runtime].
  split; [|split; [|split; [|split]]].
  - intros H. apply zero_not_truthy in H. now rewrite (runtimeDivisor_fallback e H).
  - intros H. apply runtimeDivisor_fallback. unfold JS.truthy. now rewrite H.
  - intros H. now apply div_not_nan.
  - intros H F. rewrite (runtimeDivisor_fallback e F). now apply div_finite.
  - intros H G. apply div_finite; [exact H|].
    unfold runtimeDivisor, JS.or.
    destruct (JS.truthy (averageDemand e)); [exact G | reflexivity].
Qed.

Lemma runtime_never_divides_by_zero_witness :
  (runtimeDivisor (Some calm_snapshot) = 5 /\
   runtime (recomputeBattery (Some calm_snapshot) default_battery) = 75 / 5) /\
  JS.isNaN (runtime (recomputeBattery (Some example_snapshot) default_battery)) = false /\
  JS.isFinite (runtime (recomputeBattery (Some calm_snapshot) default_battery)) = true /\
  JS.isFinite (runtime (recomputeBattery (Some example_snapshot) default_battery)) = true.
Proof.
  destruct (runtime_never_divides_by_zero (Some calm_snapshot) default_battery)
    as (_ & _ & H0 & _ & _ & Hf & _).
  destruct (runtime_never_divides_by_zero (Some example_snapshot) default_battery)
    as (_ & _ & _ & _ & Hn & _ & Hg).
  split; [apply H0; reflexivity|].
  split; [apply Hn; reflexivity|].
  split; [apply Hf; reflexivity | apply Hg; reflexivity].
Defined.

(** C10, the claim as stated: a charge of 75 and a snapshot with the
    non-negative averages 1e-310 and 0 give the divisor 5e-311, which is not
    zero, and the quotient overflows: the runtime is [Infinity]. *)
Lemma runtime_overflows_for_faint_snapshot :
  (average (solar faint_snapshot) >=? 0) = true /\
  (average (wind faint_snapshot) >=? 0) = true /\
  JS.isFinite (currentCharge default_battery) = true /\
  runtime (recomputeBattery (Some faint_snapshot) default_battery) = infinity /\
  JS.isFinite (runtime (recomputeBattery (Some faint_snapshot) default_battery)) = false.
Proof. repeat split. Qed.

(** * Further properties of the two components *)

(** ** Order of binary64 numbers *)

Module Binary64Order.

Ltac compare_cases :=
  repeat match goal with
         | |- context [Z.compare ?a ?b] => destruct (Z.compare_spec a b)
         | H : context [Z.compare ?a ?b] |- _ => destruct (Z.compare_spec a b)
         | |- context [Pos.compare ?a ?b] => destruct (Pos.compare_spec a b)
         | H : context [Pos.compare ?a ?b] |- _ => destruct (Pos.compare_spec a b)
         end.

(** [SFcompare] is transitive on "below or equal". *)
Lemma SFcompare_trans (x y z : spec_float) (c1 c2 : comparison) :
  SFcompare x y = Some c1 -> SFcompare y z = Some c2 -> c1 <> Gt -> c2 <> Gt ->
  SFcompare x z = Some (match c1, c2 with Eq, Eq => Eq | _, _ => Lt end).
Proof.
  destruct x as [sx | sx | | sx mx ex], y as [sy | sy | | sy my ey], z as [sz | sz | | sz mz ez];
    try destruct sx; try destruct sy; try destruct sz; cbn [SFcompare]; try congruence;
    change (PosDef.Pos.compare_cont Eq) with Pos.compare;
    intros H1 H2 N1 N2; destruct c1, c2; try congruence;
    compare_cases; cbn in *; try congruence; subst; try lia.
Qed.

Lemma SFcompare_refl (x : spec_float) :
  SFcompare x x = match x with S754_nan => None | _ => Some Eq end.
Proof.
  destruct x as [s | s | | s m e]; try destruct s; cbn; try reflexivity;
    now rewrite Z.compare_refl, Pos.compare_cont_refl.
Qed.

(** Two numbers are comparable unless one is NaN, and the comparison is
    antisymmetric. *)
Lemma SFcompare_antisym (x y : spec_float) :
  SFcompare y x = match SFcompare x y with Some c => Some (CompOpp c) | None => None end.
Proof.
  destruct x as [sx | sx | | sx mx ex], y as [sy | sy | | sy my ey];
    try destruct sx; try destruct sy; cbn [SFcompare CompOpp]; try reflexivity;
    change (PosDef.Pos.compare_cont Eq) with Pos.compare;
    rewrite (Z.compare_antisym ex ey), (Pos.compare_antisym mx my);
    destruct (Z.compare ex ey), (Pos.compare mx my); reflexivity.
Qed.

End Binary64Order.

(** ** Order of JavaScript numbers *)

Lemma isNaN_Prim2SF (a : JS.number) : JS.isNaN a = false <-> Prim2SF a <> S754_nan.
Proof. rewrite isNaN_spec. destruct (Prim2SF a); split; congruence. Qed.

Lemma SFcompare_None (x y : spec_float) :
  SFcompare x y = None <-> x = S754_nan \/ y = S754_nan.
Proof.
  destruct x as [sx | sx | | sx mx ex], y as [sy | sy | | sy my ey]; cbn;
    split; intros H; try discriminate H; try tauto;
    destruct H as [H | H]; discriminate H.
Qed.

(** Reading the three comparisons on [SFcompare]. *)
Ltac on_compare :=
  unfold JS.lt, JS.gt, JS.le, JS.ge;
  rewrite ?FloatAxioms.ltb_spec, ?FloatAxioms.leb_spec;
  unfold SFltb, SFleb.

Lemma lt_le (a b : JS.number) : (a <? b) = true -> (a <=? b) = true.
Proof. on_compare. now destruct (SFcompare (Prim2SF a) (Prim2SF b)) as [[]|]. Qed.

Ltac by_trans a b c :=
  on_compare;
  destruct (SFcompare (Prim2SF a) (Prim2SF b)) as [[]|] eqn:E1; try discriminate;
  destruct (SFcompare (Prim2SF b) (Prim2SF c)) as [[]|] eqn:E2; try discriminate;
  intros _ _;
  rewrite (Binary64Order.SFcompare_trans _ _ _ _ _ E1 E2) by discriminate;
  reflexivity.

Lemma lt_trans (a b c : JS.number) : (a <? b) = true -> (b <? c) = true -> (a <? c) = true.
Proof. by_trans a b c. Qed.

Lemma le_trans (a b c : JS.number) : (a <=? b) = true -> (b <=? c) = true -> (a <=? c) = true.
Proof. by_trans a b c. Qed.

Lemma le_lt_trans (a b c : JS.number) : (a <=? b) = true -> (b <? c) = true -> (a <? c) = true.
Proof. by_trans a b c. Qed.

Lemma lt_le_trans (a b c : JS.number) : (a <? b) = true -> (b <=? c) = true -> (a <? c) = true.
Proof. by_trans a b c. Qed.

Lemma le_refl (a : JS.number) : JS.isNaN a = false -> (a <=? a) = true.
Proof.
  rewrite isNaN_Prim2SF. on_compare. rewrite Binary64Order.SFcompare_refl.
  now destruct (Prim2SF a).
Qed.

Lemma lt_irrefl (a : JS.number) : (a <? a) = false.
Proof. on_compare. rewrite Binary64Order.SFcompare_refl. now destruct (Prim2SF a). Qed.

(** Two numbers none of which is below the other are both at most the
    other, unless one is NaN. *)
Lemma not_lt_le (a b : JS.number) :
  JS.isNaN a = false -> JS.isNaN b = false ->
  (a <? b) = false -> (b <=? a) = true.
Proof.
  rewrite !isNaN_Prim2SF. on_compare. intros Ha Hb.
  rewrite (Binary64Order.SFcompare_antisym (Prim2SF a) (Prim2SF b)).
  destruct (SFcompare (Prim2SF a) (Prim2SF b)) as [[]|] eqn:E; cbn; try congruence.
  apply SFcompare_None in E. tauto.
Qed.

(** Equality of numbers ([===], for numbers that are not both NaN) in terms
    of the order. *)
Lemma eqb_le (a b : JS.number) : PrimFloat.eqb a b = true -> (a <=? b) = true.
Proof.
  rewrite FloatAxioms.eqb_spec. on_compare. unfold SFeqb.
  now destruct (SFcompare (Prim2SF a) (Prim2SF b)) as [[]|].
Qed.

(** ** [||], [Math.max] and [Math.min] *)

(** [a || 0] is never NaN and never [-0]. *)
Lemma or_zero_clean (a : JS.number) :
  JS.isNaN (a ||| 0) = false /\ PrimFloat.classify (a ||| 0) <> NZero.
Proof.
  unfold JS.or. destruct (JS.truthy a) eqn:T; [|split; [reflexivity | discriminate]].
  rewrite truthy_spec in T. rewrite isNaN_spec, classify_spec.
  unfold SF64classify, SFclassify.
  destruct (Prim2SF a) as [s | s | | s m e]; try discriminate T; try destruct s;
    split; try reflexivity; try discriminate;
    destruct (Z.pos (digits2_pos m) =? prec)%Z; discriminate.
Qed.

(** A falsy number that is not NaN is a zero. *)
Lemma falsy_le_zero (a : JS.number) :
  JS.truthy a = false -> JS.isNaN a = false -> (a <=? 0) = true.
Proof.
  unfold JS.truthy. intros T N. rewrite N in T. cbn in T.
  apply negb_false_iff in T. now apply eqb_le.
Qed.

Lemma max_spec (a b : JS.number) :
  JS.isNaN a = false -> JS.isNaN b = false ->
  JS.isNaN (JS.max a b) = false /\
  (JS.max a b = a \/ JS.max a b = b) /\
  (a <=? JS.max a b) = true /\ (b <=? JS.max a b) = true.
Proof.
  intros Ha Hb. unfold JS.max. rewrite Ha, Hb. cbn [orb].
  destruct (PrimFloat.ltb a b) eqn:L1.
  { repeat split; auto using le_refl. now apply lt_le. }
  destruct (PrimFloat.ltb b a) eqn:L2.
  { repeat split; auto using le_refl. now apply lt_le. }
  assert (Hba : (b <=? a) = true) by now apply not_lt_le.
  assert (Hab : (a <=? b) = true) by now apply not_lt_le.
  destruct (PrimFloat.classify a); repeat split; auto using le_refl.
Qed.


Lemma max_nan (a b : JS.number) :
  JS.isNaN a = true \/ JS.isNaN b = true -> JS.max a b = PrimFloat.nan.
Proof. unfold JS.max. intros [-> | ->]; [reflexivity | now rewrite orb_true_r]. Qed.


(** [Math.max(...l)] over numbers none of which is NaN, from an
    accumulator that is not NaN. *)
Lemma fold_max_spec (l : list JS.number) (acc : JS.number) :
  JS.isNaN acc = false -> Forall (fun v => JS.isNaN v = false) l ->
  let m := fold_left JS.max l acc in
  JS.isNaN m = false /\ (acc <=? m) = true /\
  Forall (fun v => (v <=? m) = true) l /\ (m = acc \/ In m l).
Proof.
  revert acc. induction l as [|x l IH]; intros acc Ha Hl; cbn [fold_left].
  - repeat split; auto using le_refl.
  - inversion Hl as [|? ? Hx Hl']; subst.
    destruct (max_spec acc x Ha Hx) as (Hm & Hc & Hle1 & Hle2).
    destruct (IH (JS.max acc x) Hm Hl') as (N & A & F & I).
    cbv zeta in *. repeat split.
    + exact N.
    + eapply le_trans; eassumption.
    + constructor; [eapply le_trans; eassumption | exact F].
    + destruct I as [I | I]; [|right; now right].
      destruct Hc as [Hc | Hc].
      * left. now rewrite I.
      * right. left. now rewrite I.
Qed.

(** ** The snapshot built by [fetchEnergyData] *)

Lemma currentOf_clean (values : list JS.number) :
  JS.isNaN (currentOf values) = false /\ PrimFloat.classify (currentOf values) <> NZero.
Proof.
  unfold currentOf. destruct (JSArray.lastElement values).
  - apply or_zero_clean.
  - split; [reflexivity | discriminate].
Qed.

(** X1: whatever the responses hold, and when the fetch fails, none of the six
    statistics of the stored snapshot is NaN or [-0]: every one of them ends
    in [|| 0]. *)
Theorem fetched_statistics_are_numbers
        (formatDay : string -> string)
        (response : option (list (string * JS.number) * list (string * JS.number))) :
  let e := fetchedEnergyData formatDay response in
  Forall (fun x => JS.isNaN x = false /\ PrimFloat.classify x <> NZero)
         [ current (solar e); average (solar e); peak (solar e);
           current (wind e); average (wind e); peak (wind e) ].
Proof.
  destruct response as [[s w]|]; cbn [fetchedEnergyData].
  - cbn [solar wind sourceOf current average peak].
    repeat constructor; try apply currentOf_clean; apply or_zero_clean.
  - repeat constructor; discriminate.
Qed.

(** X2: a parameter with no entry gives the current value 0 and the average
    0 (from [undefined || 0] and [NaN || 0]) but the peak [-Infinity]:
    [Math.max()] is [-Infinity], which [||] keeps. *)
Theorem empty_parameter_statistics (formatDay : string -> string) :
  sourceOf formatDay []
  = {| current := 0; average := 0; peak := neg_infinity; data := [] |} /\
  (peak (sourceOf formatDay []) <? average (sourceOf formatDay [])) = true.
Proof. split; reflexivity. Qed.

Lemma fold_max_nan (l : list JS.number) (acc : JS.number) :
  JS.isNaN acc = true -> JS.isNaN (fold_left JS.max l acc) = true.
Proof.
  revert acc. induction l as [|x l IH]; intros acc H; cbn [fold_left]; [exact H|].
  apply IH. now rewrite max_nan by (now left).
Qed.

Lemma maxOf_nan (l : list JS.number) :
  Exists (fun v => JS.isNaN v = true) l -> JS.isNaN (JS.maxOf l) = true.
Proof.
  unfold JS.maxOf. generalize neg_infinity.
  induction l as [|x l IH]; intros acc H; inversion H as [? ? Hx | ? ? Hl]; subst;
    cbn [fold_left].
  - apply fold_max_nan. now rewrite max_nan by (now right).
  - now apply IH.
Qed.

(** X3: when no sample is NaN the stored peak is at least every sample, and
    it is one of the samples unless it is 0 (for a largest sample that is a
    zero) or there is no sample; when a sample is NaN the stored peak is 0. *)
Theorem peak_bounds_samples (values : list JS.number) :
  (Forall (fun v => JS.isNaN v = false) values ->
   Forall (fun v => (v <=? peakOf values) = true) values /\
   (In (peakOf values) values \/ peakOf values = 0 \/ values = [])) /\
  (Exists (fun v => JS.isNaN v = true) values -> peakOf values = 0).
Proof.
  split.
  - intros H.
    destruct (fold_max_spec values neg_infinity eq_refl H) as (N & _ & F & I).
    cbv zeta in *. fold (JS.maxOf values) in *.
    unfold peakOf, JS.or. destruct (JS.truthy (JS.maxOf values)) eqn:T.
    + split; [exact F|]. destruct I as [I | I]; [|now left].
      destruct values as [|x r]; [now right; right|].
      inversion F as [|? ? Hx _]; subst. rewrite I in Hx. left.
      (* every sample is at most -Infinity: the first one is -Infinity *)
      inversion H as [|? ? Nx _]; subst.
      assert (x = neg_infinity).
      { apply Prim2SF_inj. revert Hx Nx. rewrite isNaN_spec. on_compare.
        change (Prim2SF neg_infinity) with (S754_infinity true).
        destruct (Prim2SF x) as [s | s | | s m e]; try destruct s; cbn; congruence. }
      subst x. rewrite I. now left.
    + split; [|now right; left].
      eapply Forall_impl; [|exact F]. cbv beta. intros v Hv.
      eapply le_trans; [exact Hv|]. now apply falsy_le_zero.
  - intros H. apply maxOf_nan in H. unfold peakOf, JS.or, JS.truthy. now rewrite H.
Qed.

(** ** The chart of the last seven days *)

Lemma lastElement_app {A : Type} (l : list A) (x : A) :
  JSArray.lastElement (l ++ [x]) = Some x.
Proof.
  unfold JSArray.lastElement. rewrite length_app. cbn [List.length].
  replace (List.length l + 1 - 1)%nat with (List.length l) by lia.
  rewrite nth_error_app2 by lia. now rewrite Nat.sub_diag.
Qed.

Lemma sliceLast_length {A : Type} (k : nat) (l : list A) :
  List.length (JSArray.sliceLast k l) = Nat.min k (List.length l).
Proof. unfold JSArray.sliceLast. rewrite length_skipn. lia. Qed.

Lemma sliceLast_all {A : Type} (k : nat) (l : list A) :
  (List.length l <= k)%nat -> JSArray.sliceLast k l = l.
Proof.
  intros H. unfold JSArray.sliceLast.
  replace (List.length l - k)%nat with 0%nat by lia. reflexivity.
Qed.

Lemma sliceLast_app {A : Type} (k : nat) (l : list A) (x : A) :
  JSArray.sliceLast (S k) (l ++ [x]) = (JSArray.sliceLast k l ++ [x])%list.
Proof.
  unfold JSArray.sliceLast. rewrite length_app. cbn [List.length].
  replace (List.length l + 1 - S k)%nat with (List.length l - k)%nat by lia.
  rewrite skipn_app.
  replace (List.length l - k - List.length l)%nat with 0%nat by lia. reflexivity.
Qed.

(** X4: the chart holds the last seven entries of the parameter, in their
    order and with their values as they are (all entries when there are at
    most seven); its last point is the most recent sample, the one the
    current value is read from, which is that sample unless it is 0 or NaN. *)
Theorem chart_shows_last_week
        (formatDay : string -> string) (entries : list (string * JS.number)) :
  List.length (chartData formatDay entries) = Nat.min 7 (List.length entries) /\
  List.map value (chartData formatDay entries) = JSArray.sliceLast 7 (valuesOf entries) /\
  ((List.length entries <= 7)%nat ->
   List.map value (chartData formatDay entries) = valuesOf entries) /\
  (forall (date : string) (v : JS.number),
      JSArray.lastElement (chartData formatDay (entries ++ [(date, v)]))
      = Some {| time := formatDay date; value := v |} /\
      currentOf (valuesOf (entries ++ [(date, v)])) = v ||| 0).
Proof.
  assert (M : List.map value (chartData formatDay entries)
              = JSArray.sliceLast 7 (valuesOf entries)).
  { unfold chartData, valuesOf, JSArray.sliceLast.
    rewrite List.map_map, length_map, <- skipn_map.
    f_equal. apply List.map_ext. now intros [d v]. }
  repeat split.
  - unfold chartData. now rewrite length_map, sliceLast_length.
  - exact M.
  - intros H. rewrite M. apply sliceLast_all. unfold valuesOf. now rewrite length_map.
  - unfold chartData. rewrite sliceLast_app, List.map_app. cbn [List.map].
    apply lastElement_app.
  - unfold currentOf, valuesOf. rewrite List.map_app. cbn [List.map snd].
    now rewrite lastElement_app.
Qed.

(** ** Arrays *)

Lemma mapFrom_length {A B : Type} (f : A -> nat -> B) (k : nat) (l : list A) :
  List.length (JSArray.mapFrom f k l) = List.length l.
Proof. revert k; induction l as [|x l IH]; intros k; cbn; [reflexivity | now rewrite IH]. Qed.

Lemma mapFrom_nth_error {A B : Type} (f : A -> nat -> B) (k i : nat) (l : list A) :
  nth_error (JSArray.mapFrom f k l) i = option_map (fun x => f x (k + i)%nat) (nth_error l i).
Proof.
  revert k i; induction l as [|x l IH]; intros k [|i]; cbn; try reflexivity.
  - now rewrite Nat.add_0_r.
  - rewrite IH. now replace (S k + i)%nat with (k + S i)%nat by lia.
Qed.

Lemma filterFrom_all {A : Type} (p : A -> nat -> bool) (k : nat) (l : list A) :
  (forall x i, (k <= i)%nat -> p x i = true) -> JSArray.filterFrom p k l = l.
Proof.
  revert k; induction l as [|x l IH]; intros k H; cbn; [reflexivity|].
  rewrite (H x k) by lia. f_equal. apply IH. intros y i Hi. apply H. lia.
Qed.

(** Filtering one index out cuts the list at that index. *)
Lemma filterFrom_remove {A : Type} (index k : nat) (l : list A) :
  (k <= index)%nat ->
  JSArray.filterFrom (fun _ i => negb (Nat.eqb i index)) k l
  = (firstn (index - k) l ++ skipn (S (index - k)) l)%list.
Proof.
  revert k; induction l as [|x l IH]; intros k H; cbn [JSArray.filterFrom].
  - now rewrite firstn_nil, skipn_nil.
  - destruct (Nat.eqb_spec k index) as [-> | Hne]; cbn [negb].
    + rewrite Nat.sub_diag. cbn [firstn skipn app].
      apply filterFrom_all. intros y i Hi.
      apply negb_true_iff, Nat.eqb_neq. lia.
    + rewrite IH by lia.
      replace (index - k)%nat with (S (index - S k)) by lia. reflexivity.
Qed.

Lemma mapFrom_beyond {A : Type} (g : A -> A) (index k : nat) (l : list A) :
  (k + List.length l <= index)%nat ->
  JSArray.mapFrom (fun a i => if Nat.eqb i index then g a else a) k l = l.
Proof.
  revert k; induction l as [|x l IH]; intros k H; cbn [JSArray.mapFrom]; [reflexivity|].
  cbn [List.length] in H.
  destruct (Nat.eqb_spec k index); [lia|]. f_equal. apply IH. lia.
Qed.

Lemma mapFrom_mapFrom {A B C : Type} (f : A -> nat -> B) (g : B -> nat -> C) (k : nat)
      (l : list A) :
  JSArray.mapFrom g k (JSArray.mapFrom f k l) = JSArray.mapFrom (fun a i => g (f a i) i) k l.
Proof. revert k; induction l as [|x l IH]; intros k; cbn; [reflexivity | now rewrite IH]. Qed.

Lemma mapFrom_ext {A B : Type} (f g : A -> nat -> B) (k : nat) (l : list A) :
  (forall a i, f a i = g a i) -> JSArray.mapFrom f k l = JSArray.mapFrom g k l.
Proof.
  intros H. revert k; induction l as [|x l IH]; intros k; cbn; [reflexivity|].
  now rewrite H, IH.
Qed.

(** ** The appliance list *)

Module ApplianceFacts.
Import EnhancedFeatures.

Lemma setEnergyConsumption_same (st : State) :
  setEnergyConsumption (fun prev => setAppliances (appliances prev) prev) st = st.
Proof. destruct st as [[d p a] c f]. reflexivity. Qed.

Lemma removeAppliance_appliances (index : nat) (st : State) :
  appliances (energyConsumption (removeAppliance index st))
  = (firstn index (appliances (energyConsumption st))
     ++ skipn (S index) (appliances (energyConsumption st)))%list.
Proof.
  cbn. unfold JSArray.filter. rewrite filterFrom_remove by lia.
  now rewrite Nat.sub_0_r.
Qed.

(** X6: removing the appliance at an index of the list takes exactly that
    entry out: the list gets one shorter, the entries before the index keep
    their place, the later ones move up by one, and nothing else of the
    state changes. *)
Theorem removeAppliance_in_range (index : nat) (st : State) :
  (index < List.length (appliances (energyConsumption st)))%nat ->
  let l := appliances (energyConsumption st) in
  let l' := appliances (energyConsumption (removeAppliance index st)) in
  l' = (firstn index l ++ skipn (S index) l)%list /\
  S (List.length l') = List.length l /\
  (forall i, (i < index)%nat -> nth_error l' i = nth_error l i) /\
  (forall i, (index <= i)%nat -> nth_error l' i = nth_error l (S i)) /\
  dailyDemand (energyConsumption (removeAppliance index st)) = dailyDemand (energyConsumption st) /\
  peakHours (energyConsumption (removeAppliance index st)) = peakHours (energyConsumption st) /\
  costAnalysis (removeAppliance index st) = costAnalysis st /\
  carbonFootprint (removeAppliance index st) = carbonFootprint st.
Proof.
  intros H l l'. subst l'. rewrite removeAppliance_appliances. fold l.
  fold l in H.
  assert (Hf : List.length (firstn index l) = index) by (rewrite length_firstn; lia).
  repeat split.
  - rewrite length_app, Hf, length_skipn. lia.
  - intros i Hi. rewrite nth_error_app1 by lia. rewrite nth_error_firstn.
    now replace (i <? index)%nat with true by (symmetry; apply Nat.ltb_lt; lia).
  - intros i Hi. rewrite nth_error_app2 by lia. rewrite Hf, nth_error_skipn.
    f_equal. lia.
Qed.

Lemma removeAppliance_in_range_witness :
  let l := appliances (energyConsumption initialState) in
  let l' := appliances (energyConsumption (removeAppliance 1 initialState)) in
  l' = (firstn 1 l ++ skipn 2 l)%list /\
  S (List.length l') = List.length l /\
  (forall i, (i < 1)%nat -> nth_error l' i = nth_error l i) /\
  (forall i, (1 <= i)%nat -> nth_error l' i = nth_error l (S i)) /\
  dailyDemand (energyConsumption (removeAppliance 1 initialState))
  = dailyDemand (energyConsumption initialState) /\
  peakHours (energyConsumption (removeAppliance 1 initialState))
  = peakHours (energyConsumption initialState) /\
  costAnalysis (removeAppliance 1 initialState) = costAnalysis initialState /\
  carbonFootprint (removeAppliance 1 initialState) = carbonFootprint initialState.
Proof.
  apply (removeAppliance_in_range 1 initialState). cbn. lia.
Defined.

(** X7: removing at an index that is not in the list changes nothing. *)
Theorem removeAppliance_out_of_range (index : nat) (st : State) :
  (List.length (appliances (energyConsumption st)) <= index)%nat ->
  removeAppliance index st = st.
Proof.
  intros H. rewrite <- (setEnergyConsumption_same st) at 2.
  unfold removeAppliance, setEnergyConsumption. f_equal. f_equal.
  unfold JSArray.filter. rewrite filterFrom_remove by lia. rewrite Nat.sub_0_r.
  rewrite firstn_all2 by exact H. rewrite skipn_all2 by lia. apply app_nil_r.
Qed.

Lemma removeAppliance_out_of_range_witness : removeAppliance 5 initialState = initialState.
Proof. apply (removeAppliance_out_of_range 5 initialState). cbn. lia. Defined.

(** X9: [updateAppliance] keeps the length of the list, replaces the one
    field of the entry at the index, keeps the other entries, and changes
    nothing at all when the index is not in the list. *)
Theorem updateAppliance_at_index (index : nat) (fv : FieldValue) (st : State) :
  let l := appliances (energyConsumption st) in
  let l' := appliances (energyConsumption (updateAppliance index fv st)) in
  List.length l' = List.length l /\
  nth_error l' index = option_map (withField fv) (nth_error l index) /\
  (forall i, i <> index -> nth_error l' i = nth_error l i) /\
  ((List.length l <= index)%nat -> updateAppliance index fv st = st) /\
  dailyDemand (energyConsumption (updateAppliance index fv st)) = dailyDemand (energyConsumption st) /\
  costAnalysis (updateAppliance index fv st) = costAnalysis st /\
  carbonFootprint (updateAppliance index fv st) = carbonFootprint st.
Proof.
  intros l l'. subst l'. cbn. fold l. unfold JSArray.map.
  repeat split.
  - apply mapFrom_length.
  - rewrite mapFrom_nth_error. cbn [Nat.add]. rewrite Nat.eqb_refl.
    now destruct (nth_error l index).
  - intros i Hi. rewrite mapFrom_nth_error. cbn [Nat.add].
    destruct (Nat.eqb_spec i index); [contradiction|]. now destruct (nth_error l i).
  - intros H. rewrite <- (setEnergyConsumption_same st) at 2.
    unfold updateAppliance, setEnergyConsumption. f_equal. f_equal.
    unfold JSArray.map. apply mapFrom_beyond. fold l. lia.
Qed.

(** X10: editing the same field of the same entry twice leaves the second
    value: the first edit is overwritten. *)
Theorem updateAppliance_last_wins (index : nat) (st : State) :
  (forall v1 v2, updateAppliance index (NameIs v2) (updateAppliance index (NameIs v1) st)
                 = updateAppliance index (NameIs v2) st) /\
  (forall v1 v2, updateAppliance index (PowerIs v2) (updateAppliance index (PowerIs v1) st)
                 = updateAppliance index (PowerIs v2) st) /\
  (forall v1 v2, updateAppliance index (HoursIs v2) (updateAppliance index (HoursIs v1) st)
                 = updateAppliance index (HoursIs v2) st).
Proof.
  repeat split; intros v1 v2; unfold updateAppliance, setEnergyConsumption, setAppliances;
    cbn [energyConsumption appliances dailyDemand peakHours costAnalysis carbonFootprint];
    f_equal; f_equal; unfold JSArray.map; rewrite mapFrom_mapFrom;
    apply mapFrom_ext; intros a i; destruct (Nat.eqb i index); reflexivity.
Qed.

(** X11: edits of two different entries commute. *)
Theorem updateAppliance_commute (i j : nat) (fi fj : FieldValue) (st : State) :
  i <> j ->
  updateAppliance i fi (updateAppliance j fj st) = updateAppliance j fj (updateAppliance i fi st).
Proof.
  intros H. unfold updateAppliance, setEnergyConsumption, setAppliances.
  cbn [energyConsumption appliances dailyDemand peakHours costAnalysis carbonFootprint].
  f_equal. f_equal. unfold JSArray.map. rewrite !mapFrom_mapFrom.
  apply mapFrom_ext. intros a k.
  destruct (Nat.eqb_spec k i), (Nat.eqb_spec k j); try reflexivity. lia.
Qed.

Lemma updateAppliance_commute_witness :
  updateAppliance 0 (PowerIs 2) (updateAppliance 1 (HoursIs 12) initialState)
  = updateAppliance 1 (HoursIs 12) (updateAppliance 0 (PowerIs 2) initialState).
Proof. apply (updateAppliance_commute 0 1 (PowerIs 2) (HoursIs 12) initialState). lia. Defined.

Lemma totalDailyConsumption_app (l : list Appliance) (a : Appliance) :
  totalDailyConsumption (l ++ [a]) = totalDailyConsumption l + power a * hours a.
Proof. unfold totalDailyConsumption. now rewrite fold_left_app. Qed.

(** X5: [addAppliance] appends the entry "New Appliance" (1 kW, 4 h): the
    entries already there keep their index, the new one comes last, and the
    total shown under the list is the former total plus 4. *)
Theorem addAppliance_appends (st : State) :
  let l := appliances (energyConsumption st) in
  let l' := appliances (energyConsumption (addAppliance st)) in
  l' = (l ++ [newAppliance])%list /\
  List.length l' = S (List.length l) /\
  (forall i a, nth_error l i = Some a -> nth_error l' i = Some a) /\
  nth_error l' (List.length l) = Some newAppliance /\
  totalDailyConsumption l' = totalDailyConsumption l + 4 /\
  dailyDemand (energyConsumption (addAppliance st)) = dailyDemand (energyConsumption st).
Proof.
  intros l l'. subst l'. cbn. fold l. repeat split.
  - rewrite length_app. cbn. lia.
  - intros i a H. rewrite nth_error_app1; [exact H|].
    apply nth_error_Some. congruence.
  - rewrite nth_error_app2 by lia. now rewrite Nat.sub_diag.
  - apply totalDailyConsumption_app.
Qed.

(** X8: removing the last index right after [addAppliance] gives the state
    back. *)
Theorem add_then_remove_last (st : State) :
  removeAppliance (List.length (appliances (energyConsumption st))) (addAppliance st) = st.
Proof.
  rewrite <- (setEnergyConsumption_same st) at 3.
  unfold removeAppliance, addAppliance, setEnergyConsumption, setAppliances.
  cbn [energyConsumption appliances dailyDemand peakHours costAnalysis carbonFootprint].
  f_equal. f_equal. unfold JSArray.filter. rewrite filterFrom_remove by lia.
  rewrite Nat.sub_0_r.
  rewrite firstn_app, Nat.sub_diag, firstn_all. cbn [firstn].
  rewrite skipn_all2 by (rewrite length_app; cbn; lia).
  now rewrite !app_nil_r.
Qed.

End ApplianceFacts.

(** ** More on the recommendations *)

(** A number above 5 is not below 3, and a number below 20 is below 50. *)
Lemma above_5_not_below_3 (x : JS.number) : (x >? 5) = true -> (x <? 3) = false.
Proof.
  intros H. destruct (x <? 3) eqn:L; [|reflexivity].
  pose proof (lt_trans 5 x 3 H L) as C. vm_compute in C. discriminate C.
Qed.

Lemma below_20_below_50 (x : JS.number) : (x <? 20) = true -> (x <? 50) = true.
Proof. intros H. apply (lt_trans x 20 50 H). reflexivity. Qed.

(** X13: the generator never advises both to charge from the sun or the wind
    and to fall back on the grid: the solar and the wind rule exclude the
    grid rule.  So at most five recommendations come out, each category at
    most once, and a critical battery level under a strong sun always comes
    with the solar recommendation. *)
Theorem recommendations_are_consistent
        (toFixed : JS.number -> Z -> string) (h : Z)
        (e : EnergyData) (b : BatteryState) (c : EnergyConsumption) (cost : CostAnalysis.t) :
  let categories := List.map type (recommendationsFor toFixed h e b c cost) in
  ~ (In solar_t categories /\ In grid_t categories) /\
  ~ (In wind_t categories /\ In grid_t categories) /\
  (List.length categories <= 5)%nat /\
  NoDup categories /\
  (In battery_t categories -> (current (solar e) >? 5) = true -> In solar_t categories).
Proof.
  intros categories; subst categories. rewrite recommendationsFor_app.
  assert (X1 : (current (solar e) >? 5) && (percentage b <? 50) = true ->
               (current (solar e) <? 3) && (current (wind e) <? 3) = false).
  { intros H. apply andb_prop in H. destruct H as [H _].
    now rewrite (above_5_not_below_3 _ H). }
  assert (X2 : (current (wind e) >? 5) && (percentage b <? 70) = true ->
               (current (solar e) <? 3) && (current (wind e) <? 3) = false).
  { intros H. apply andb_prop in H. destruct H as [H _].
    rewrite (above_5_not_below_3 _ H). apply andb_false_r. }
  assert (X3 : (percentage b <? 20) = true -> (current (solar e) >? 5) = true ->
               (current (solar e) >? 5) && (percentage b <? 50) = true).
  { intros H1 H2. now rewrite H2, (below_20_below_50 _ H1). }
  revert X1 X2 X3.
  generalize ((current (solar e) >? 5) && (percentage b <? 50)); intros c1.
  generalize ((current (wind e) >? 5) && (percentage b <? 70)); intros c2.
  generalize ((average (solar e) >? 4) && (average (wind e) >? 3)); intros c3.
  generalize (carbonReduction c >? 0.5); intros c4.
  generalize (percentage b <? 20); intros c5.
  generalize ((current (solar e) <? 3) && (current (wind e) <? 3)); intros c6.
  generalize (current (solar e) >? 5); intros s5.
  intros X1 X2 X3.
  destruct c1, c2, c3, c4, c5, c6;
    try (specialize (X1 eq_refl); discriminate X1);
    try (specialize (X2 eq_refl); discriminate X2);
    cbn; (split; [|split; [|split; [|split]]];
          [ intuition congruence | intuition congruence | lia
          | repeat constructor; cbn; intuition congruence
          | intros B S5; try (specialize (X3 eq_refl S5); discriminate X3);
            cbn in B; intuition congruence ]).
Qed.

Ltac generalize_rules e b c :=
  generalize ((current (solar e) >? 5) && (percentage b <? 50));
  generalize ((current (wind e) >? 5) && (percentage b <? 70));
  generalize ((average (solar e) >? 4) && (average (wind e) >? 3));
  generalize (carbonReduction c >? 0.5);
  generalize (percentage b <? 20);
  generalize ((current (solar e) <? 3) && (current (wind e) <? 3)).

(** X14: every recommendation that comes out has an impact of 45 to 100, a
    confidence of 80 to 100, and a priority that is never [low]. *)
Theorem recommendations_scores_in_range
        (toFixed : JS.number -> Z -> string) (h : Z)
        (e : EnergyData) (b : BatteryState) (c : EnergyConsumption) (cost : CostAnalysis.t) :
  Forall (fun r =>
            (impact r >=? 45) = true /\ (impact r <=? 100) = true /\
            (confidence r >=? 80) = true /\ (confidence r <=? 100) = true /\
            priority r <> low)
         (recommendationsFor toFixed h e b c cost).
Proof.
  rewrite recommendationsFor_app. generalize_rules e b c.
  intros c6 c5 c4 c3 c2 c1.
  destruct c1, c2, c3, c4, c5, c6; cbn [app];
    repeat (apply Forall_cons; [repeat split; try reflexivity; discriminate|]);
    apply Forall_nil.
Qed.

(** X15: in the rendered list a recommendation gets the red badge
    ([destructive]) exactly when its category is wind or grid; the two
    critical ones (solar and battery) get the badge of a low priority
    ([secondary]); and the economic and environmental ones get no icon. *)
Theorem critical_recommendations_get_the_low_badge
        (toFixed : JS.number -> Z -> string) (h : Z)
        (e : EnergyData) (b : BatteryState) (c : EnergyConsumption) (cost : CostAnalysis.t) :
  Forall (fun r =>
            (badgeVariant (priority r) = destructive <-> type r = wind_t \/ type r = grid_t) /\
            (priority r = critical <-> type r = solar_t \/ type r = battery_t) /\
            (priority r = critical -> badgeVariant (priority r) = badgeVariant low) /\
            (glyphOf (type r) = None <-> type r = economic_t \/ type r = environmental_t))
         (recommendationsFor toFixed h e b c cost).
Proof.
  rewrite recommendationsFor_app. generalize_rules e b c.
  intros c6 c5 c4 c3 c2 c1.
  destruct c1, c2, c3, c4, c5, c6; cbn [app];
    repeat (apply Forall_cons; [cbn; intuition congruence|]);
    apply Forall_nil.
Qed.

(** X16: the first version of the generator and the second agree on the four
    categories they share: the categories the first version yields are those
    of the second version that have an icon, in the same order. *)
Theorem legacy_generator_agrees
        (toFixed : JS.number -> Z -> string) (h : Z)
        (e : EnergyData) (b : BatteryState) (c : EnergyConsumption) (cost : CostAnalysis.t) :
  List.map Legacy.type (Legacy.recommendationsFor e b)
  = List.filter (fun t => match glyphOf t with Some _ => true | None => false end)
                (List.map type (recommendationsFor toFixed h e b c cost)) /\
  Forall (fun r => Legacy.priority r = high \/ Legacy.priority r = medium)
         (Legacy.recommendationsFor e b).
Proof.
  rewrite recommendationsFor_app. unfold Legacy.recommendationsFor, Legacy.pushIf.
  generalize_rules e b c.
  intros c6 c5 c4 c3 c2 c1.
  destruct c1, c2, c3, c4, c5, c6; cbn; (split; [reflexivity|]);
    repeat (apply Forall_cons; [cbn; tauto|]);
    apply Forall_nil.
Qed.

(** ** More on the feasibility score *)

(** The band of each step with the comparisons that select it. *)
Lemma solarScoring_band (s : Source) :
  ((average s >? 6) = true /\ (average s >? 4) = true /\
   forall t, solarScoring s t = award 40 "excellent solar availability" t) \/
  ((average s >? 6) = false /\ (average s >? 4) = true /\
   forall t, solarScoring s t = award 25 "good solar potential" t) \/
  ((average s >? 6) = false /\ (average s >? 4) = false /\
   forall t, solarScoring s t = award 10 "limited solar resources" t).
Proof.
  unfold solarScoring.
  destruct (average s >? 6) eqn:H6.
  - left. repeat split. apply (lt_trans 4 6 (average s)); [reflexivity | exact H6].
  - destruct (average s >? 4); [right; left | right; right]; repeat split.
Qed.

Lemma windScoring_band (w : Source) :
  ((average w >? 5) = true /\ (average w >? 3) = true /\
   forall t, windScoring w t = award 30 "strong wind resources" t) \/
  ((average w >? 5) = false /\ (average w >? 3) = true /\
   forall t, windScoring w t = award 20 "moderate wind potential" t) \/
  ((average w >? 5) = false /\ (average w >? 3) = false /\
   forall t, windScoring w t = award 5 "low wind availability" t).
Proof.
  unfold windScoring.
  destruct (average w >? 5) eqn:H5.
  - left. repeat split. apply (lt_trans 3 5 (average w)); [reflexivity | exact H5].
  - destruct (average w >? 3); [right; left | right; right]; repeat split.
Qed.

Lemma batteryScoring_band (b : BatteryState) :
  ((runtime b >? 12) = true /\
   forall t, batteryScoring b t = award 20 "sufficient battery capacity" t) \/
  ((runtime b >? 12) = false /\
   ((forall t, batteryScoring b t = award 15 "adequate battery runtime" t) \/
    (forall t, batteryScoring b t = award 5 "limited battery capacity" t))).
Proof.
  unfold batteryScoring.
  destruct (runtime b >? 12); [left; now split | right; split; [reflexivity|]].
  destruct (runtime b >? 6); [now left | now right].
Qed.

Lemma reliabilityScoring_band (e : EnergyData) :
  ((peak (solar e) >? 7) || (peak (wind e) >? 6) = true /\
   forall t, reliabilityScoring e t = award 10 "reliable energy peaks" t) \/
  ((peak (solar e) >? 7) || (peak (wind e) >? 6) = false /\
   forall t, reliabilityScoring e t = t).
Proof.
  unfold reliabilityScoring.
  destruct ((peak (solar e) >? 7) || (peak (wind e) >? 6)); [left | right]; now split.
Qed.

(** X17: a site is [optimal] only with a solar average above 4 and a wind
    average above 3; with both averages in their lowest band it is
    [not-recommended] whatever the battery and the peaks; and the score is
    100 exactly when every step is in its best band. *)
Theorem feasibility_needs_both_resources (e : EnergyData) (b : BatteryState) :
  let r := feasibilityResult e b in
  (status r = optimal ->
   (average (solar e) >? 4) = true /\ (average (wind e) >? 3) = true) /\
  ((average (solar e) >? 4) = false -> (average (wind e) >? 3) = false ->
   status r = not_recommended) /\
  (PrimFloat.eqb (score r) 100 = true <->
   (average (solar e) >? 6) = true /\ (average (wind e) >? 5) = true /\
   (runtime b >? 12) = true /\ (peak (solar e) >? 7) || (peak (wind e) >? 6) = true).
Proof.
  intros r; subst r.
  rewrite feasibilityResult_status, feasibilityResult_score. unfold feasibilityTally.
  destruct (solarScoring_band (solar e)) as [(S6 & S4 & Hs) | [(S6 & S4 & Hs) | (S6 & S4 & Hs)]];
    destruct (windScoring_band (wind e)) as [(W5 & W3 & Hw) | [(W5 & W3 & Hw) | (W5 & W3 & Hw)]];
    destruct (batteryScoring_band b) as [(B & Hb) | (B & [Hb | Hb])];
    destruct (reliabilityScoring_band e) as [(R & Hr) | (R & Hr)];
    rewrite Hs, Hw, Hb, Hr, S6, S4, W5, W3, B, R; clear;
    vm_compute; intuition congruence.
Qed.

(** ** The two effects of the dashboard *)

Lemma recomputeBattery_idempotent (e : option EnergyData) (b : BatteryState) :
  recomputeBattery e (recomputeBattery e b) = recomputeBattery e b.
Proof. reflexivity. Qed.

(** X18: the battery effect and the scoring effect settle after one pass: the
    battery effect does not change what it depends on (capacity, charge,
    energy data), the scoring effect changes neither the battery nor the
    energy data, so running either again on the state they leave changes
    nothing. *)
Theorem effects_settle (toFixed : JS.number -> Z -> string) (h : Z) (st : Dashboard) :
  let st' := scoringEffect toFixed h (batteryEffect st) in
  batteryEffect st' = st' /\
  scoringEffect toFixed h st' = st' /\
  battery st' = recomputeBattery (energyData st) (battery st) /\
  energyData st' = energyData st /\
  location st' = location st.
Proof.
  destruct st as [l e b recs f c k].
  destruct e as [e|], l as [l|]; cbn; repeat split.
Qed.

(** ** More on the cost and carbon projection *)

Module ProjectionFacts.
Import EnhancedFeatures.

(** X12: the projection reads the daily demand and the grid cost, never the
    appliance list: it commutes with the three edits of the list, so the
    figures it stores are the same before and after an edit; and running it
    twice is running it once. *)
Theorem projection_ignores_appliances (e : EnergyData) (st : State) :
  calculateEnhancedMetrics e (calculateEnhancedMetrics e st) = calculateEnhancedMetrics e st /\
  calculateEnhancedMetrics e (addAppliance st) = addAppliance (calculateEnhancedMetrics e st) /\
  (forall i, calculateEnhancedMetrics e (removeAppliance i st)
             = removeAppliance i (calculateEnhancedMetrics e st)) /\
  (forall i fv, calculateEnhancedMetrics e (updateAppliance i fv st)
                = updateAppliance i fv (calculateEnhancedMetrics e st)) /\
  (forall i fv,
      costAnalysis (calculateEnhancedMetrics e (updateAppliance i fv st))
      = costAnalysis (calculateEnhancedMetrics e st) /\
      carbonFootprint (calculateEnhancedMetrics e (updateAppliance i fv st))
      = carbonFootprint (calculateEnhancedMetrics e st)).
Proof. destruct st as [[d p a] c f]. repeat split. Qed.

End ProjectionFacts.

(** ** Signs and bounds of the displayed figures *)

Module Binary64Sign.
Import Binary64.
Local Open Scope Z_scope.

(** Rounding keeps the sign it is given. *)
Lemma binary_round_aux_sign (prec emax : Z) (s : bool) (m e : Z) (l : SpecFloat.location) :
  0 <= m ->
  match binary_round_aux prec emax s m e l with
  | S754_zero s' | S754_infinity s' | S754_finite s' _ _ => s' = s
  | S754_nan => False
  end.
Proof.
  intros Hm. pose proof (Binary64Facts.binary_round_aux_not_nan prec emax s m e l Hm) as N.
  revert N. unfold binary_round_aux.
  destruct (shr_fexp prec emax m e l) as [mrs1 e1].
  destruct (shr_fexp prec emax _ e1 loc_Exact) as [mrs2 e2].
  destruct (shr_m mrs2); try (intros N; now contradiction N); try reflexivity.
  now destruct (e2 <=? emax - prec).
Qed.

(** The quotient of a positive finite number by a positive number is a
    number of sign [+]. *)
Lemma SFdiv_positive (mx : positive) (ex : Z) (y : spec_float) :
  SFcompare (S754_zero false) y = Some Lt ->
  match SF64div (S754_finite false mx ex) y with
  | S754_zero s | S754_infinity s | S754_finite s _ _ => s = false
  | S754_nan => False
  end.
Proof.
  unfold SF64div, SFdiv.
  destruct y as [sy | sy | | sy my ey]; try destruct sy; cbn [SFcompare]; try discriminate;
    intros _; try reflexivity.
  pose proof (Binary64Facts.SFdiv_core_binary_spec prec emax mx my ex ey) as H.
  cbv zeta in H.
  destruct (SFdiv_core_binary prec emax (Z.pos mx) ex (Z.pos my) ey) as [[q e'] l].
  cbn [fst snd] in H. apply binary_round_aux_sign. lia.
Qed.

End Binary64Sign.

Lemma Prim2SF_systemCost :
  Prim2SF EnhancedFeatures.systemCost = S754_finite false 5497558138880000 (-36).
Proof. reflexivity. Qed.

(** X19: the payback period is never NaN and never negative, whatever the
    annual savings are (it can be [Infinity], for savings so small that the
    quotient overflows). *)
Theorem payback_is_a_nonnegative_number (annual : JS.number) :
  JS.isNaN (EnhancedFeatures.paybackPeriod annual) = false /\
  (EnhancedFeatures.paybackPeriod annual >=? 0) = true.
Proof.
  unfold EnhancedFeatures.paybackPeriod.
  destruct (annual >? 0) eqn:G; [|split; reflexivity].
  rewrite isNaN_spec. unfold JS.ge. rewrite FloatAxioms.leb_spec, div_spec.
  rewrite Prim2SF_zero, Prim2SF_systemCost.
  unfold JS.gt in G. rewrite FloatAxioms.ltb_spec, Prim2SF_zero in G.
  unfold SFltb in G.
  destruct (SFcompare (S754_zero false) (Prim2SF annual)) as [[]|] eqn:C; try discriminate G.
  pose proof (Binary64Sign.SFdiv_positive 5497558138880000 (-36) _ C) as S.
  destruct (SF64div (S754_finite false 5497558138880000 (-36)) (Prim2SF annual))
    as [s | s | | s m x]; try contradiction; subst; split; reflexivity.
Qed.

Lemma isNaN_nan : JS.isNaN PrimFloat.nan = true.
Proof. reflexivity. Qed.




(** ** A daily demand of zero *)











(** ** A battery of capacity zero *)


